(** * Session core of pyrogram: src/pyrogram/session/session.py

    A shallow embedding of the [Session] class: its result slots, the inbound
    worker ([net_worker]), the send path ([_send], [send]) and the lifecycle
    ([start], [stop], [restart]).

    Python objects become records, [self.results] (a dict) a [gmap],
    [self.pending_acks] (a set) a [gset], exceptions a sum type.  The
    cooperative tasks are sequentialised: a caller waiting on a result slot
    lets the worker handle the packets that arrive meanwhile, and awaiting a
    task runs it to completion.  The salt task that [start] spawns runs
    beside the wait that follows in [start], from one of its own waits to
    the next, as the script of the run says; elsewhere the ping and salt
    tasks appear as handles that [start] spawns and [stop] awaits, and a turn
    of the keepalive loop is given on its own. *)

From Stdlib Require Import ZArith QArith_base DecimalString.
From stdpp Require Import gmap strings list.

Open Scope Z_scope.

(** ** Exceptions and outcomes *)

(** An instance of [pyrogram.api.errors.Error] as built by [Error.raise_it]:
    whether it is an [InternalServerError], and the request type it is tagged
    with. *)
Record ErrorExc := {
  exc_internal_server_error : bool;
  exc_code : Z;
  exc_message : string;
  exc_query_type : string
}.

Inductive exn :=
| OSError                       (* OSError raised by the transport *)
| TimeoutError                  (* builtin TimeoutError, a subclass of OSError *)
| Error (e : ErrorExc)          (* pyrogram.api.errors.Error and subclasses *)
| PyException (text : string)   (* plain Exception(text) *)
| AttributeError
| IndexError
| TypeError
| KeyError.

Inductive outcome (A : Type) :=
| Return (a : A)
| Raise (e : exn).
Arguments Return {A} a.
Arguments Raise {A} e.

(** [isinstance(e, OSError)]: the builtin [TimeoutError] derives from it. *)
Definition is_OSError (e : exn) : bool :=
  match e with OSError | TimeoutError => true | _ => false end.

Definition is_TimeoutError (e : exn) : bool :=
  match e with TimeoutError => true | _ => false end.

(** [isinstance(e, Error)] *)
Definition is_Error (e : exn) : bool :=
  match e with Error _ => true | _ => false end.

Definition is_InternalServerError (e : exn) : bool :=
  match e with Error x => exc_internal_server_error x | _ => false end.

(** ** TL objects *)

Record FutureSalt := {
  valid_since : Z;
  valid_until : Z;
  salt : Z
}.

(** Inbound objects, with the attributes the session reads under an
    [isinstance] guard. *)
Inductive Body : Type :=
| MsgContainer (messages : list Message)
| MsgDetailedInfo (answer_msg_id : Z)
| MsgNewDetailedInfo (answer_msg_id : Z)
| NewSessionCreated
| BadMsgNotification (bad_msg_id : Z) (error_code : Z)
| BadServerSalt (bad_msg_id : Z) (new_server_salt : Z)
| FutureSalts (req_msg_id : Z) (salts : list FutureSalt)
| RpcResult (req_msg_id : Z) (result : Body)
| Pong (pong_msg_id : Z) (ping_id : Z)
| RpcError (error_code : Z) (error_message : string)
| TLObject (name : string) (payload : Z)
with Message : Type :=
| mkMessage (m_msg_id : Z) (m_seq_no : Z) (m_length : Z) (m_body : Body).

Definition msg_id (m : Message) : Z := let 'mkMessage i _ _ _ := m in i.
Definition seq_no (m : Message) : Z := let 'mkMessage _ n _ _ := m in n.
Definition body (m : Message) : Body := let 'mkMessage _ _ _ b := m in b.

(** Outbound requests ([data : Object] of [_send]). *)
Inductive Request :=
| Ping (ping_id : Z)
| PingDelayDisconnect (ping_id : Z) (disconnect_delay : Z)
| GetFutureSalts (num : Z)
| MsgsAck (msg_ids : list Z)
| GetConfig
| InitConnection (api_id : Z) (device_model system_version app_version : string)
    (system_lang_code lang_pack lang_code : string) (query : Request)
| InvokeWithLayer (layer : Z) (query : Request)
| TLFunction (name : string) (payload : Z).

(** [type(data)] *)
Definition type_of (data : Request) : string :=
  match data with
  | Ping _ => "Ping"
  | PingDelayDisconnect _ _ => "PingDelayDisconnect"
  | GetFutureSalts _ => "GetFutureSalts"
  | MsgsAck _ => "MsgsAck"
  | GetConfig => "GetConfig"
  | InitConnection _ _ _ _ _ _ _ _ => "InitConnection"
  | InvokeWithLayer _ _ => "InvokeWithLayer"
  | TLFunction name _ => name
  end.

(** The message built by [self.msg_factory(data)] and the arguments handed to
    [MTProto.pack] (the session id and the auth key never change). *)
Record OutMessage := {
  out_msg_id : Z;
  out_seq_no : Z;
  out_body : Request
}.

Record Payload := {
  p_message : OutMessage;
  p_salt : Z
}.

(** A packet as read from the transport: its bytes. *)
Definition Packet := list Z.

(** ** Code of the repository that is not under src/ *)

Class Externals := {
  (** [MTProto.INITIAL_SALT] *)
  INITIAL_SALT : Z;
  (** [pyrogram.api.all.layer] *)
  layer : Z;
  (** [Session.DEVICE_MODEL], [SYSTEM_VERSION] and [APP_VERSION], formatted
      from the [platform] module and the package version. *)
  DEVICE_MODEL : string;
  SYSTEM_VERSION : string;
  APP_VERSION : string;
  (** [MTProto.unpack(BytesIO(packet), salt, session_id, auth_key,
      auth_key_id)]; [None] when it raises. *)
  unpack : Packet -> Z -> option Message;
  (** [MsgFactory.__call__]: msg_id and seq_no of the n-th message built. *)
  msg_factory : nat -> Request -> Z * Z;
  (** [Error.raise_it(rpc_error, query_type)], which always raises. *)
  raise_it : Z -> string -> string -> ErrorExc;
  (** [obj.new_server_salt], read in [start] without an [isinstance] guard;
      [None] when the object has no such attribute. *)
  new_server_salt_attr : Body -> option Z
}.

(** ** Session state *)

Record Result := {
  value : option Body;
  event : bool
}.

(** The transport ([pyrogram.connection.Connection]) with a script of what
    its calls will do. *)
Record Connection := {
  connect_raises : option exn;
  send_raises : list (option exn);
  closed : bool;
  sent : list Payload
}.

Record Client := {
  updates_queue : list Body;
  disconnect_handler : bool;       (* callable(self.client.disconnect_handler) *)
  disconnect_calls : nat           (* times the handler has been invoked *)
}.

Inductive Task := TaskRunning | TaskDone.

Record Session := {
  api_id_ : Z;
  is_cdn : bool;
  client : option Client;
  connection : option Connection;
  msg_count : nat;                       (* state of self.msg_factory *)
  current_salt : option FutureSalt;
  salt_writes : list FutureSalt;         (* ghost: values assigned to current_salt, oldest first *)
  pending_acks : gset Z;
  recv_queue : list (option Packet);
  results : gmap Z Result;
  ping_task : option Task;
  ping_task_event : bool;
  next_salt_task : option Task;
  next_salt_task_event : bool;
  net_worker_task : option Task;
  recv_task : option Task;
  is_connected : bool
}.

(** Attribute assignment [self.f = v], one setter per attribute the code
    writes. *)

Definition set_client (v : option Client) (s : Session) : Session :=
  {| api_id_ := api_id_ s;
     is_cdn := is_cdn s;
     client := v;
     connection := connection s;
     msg_count := msg_count s;
     current_salt := current_salt s;
     salt_writes := salt_writes s;
     pending_acks := pending_acks s;
     recv_queue := recv_queue s;
     results := results s;
     ping_task := ping_task s;
     ping_task_event := ping_task_event s;
     next_salt_task := next_salt_task s;
     next_salt_task_event := next_salt_task_event s;
     net_worker_task := net_worker_task s;
     recv_task := recv_task s;
     is_connected := is_connected s |}.

Definition set_connection (v : option Connection) (s : Session) : Session :=
  {| api_id_ := api_id_ s;
     is_cdn := is_cdn s;
     client := client s;
     connection := v;
     msg_count := msg_count s;
     current_salt := current_salt s;
     salt_writes := salt_writes s;
     pending_acks := pending_acks s;
     recv_queue := recv_queue s;
     results := results s;
     ping_task := ping_task s;
     ping_task_event := ping_task_event s;
     next_salt_task := next_salt_task s;
     next_salt_task_event := next_salt_task_event s;
     net_worker_task := net_worker_task s;
     recv_task := recv_task s;
     is_connected := is_connected s |}.

Definition set_msg_count (v : nat) (s : Session) : Session :=
  {| api_id_ := api_id_ s;
     is_cdn := is_cdn s;
     client := client s;
     connection := connection s;
     msg_count := v;
     current_salt := current_salt s;
     salt_writes := salt_writes s;
     pending_acks := pending_acks s;
     recv_queue := recv_queue s;
     results := results s;
     ping_task := ping_task s;
     ping_task_event := ping_task_event s;
     next_salt_task := next_salt_task s;
     next_salt_task_event := next_salt_task_event s;
     net_worker_task := net_worker_task s;
     recv_task := recv_task s;
     is_connected := is_connected s |}.

Definition set_pending_acks (v : gset Z) (s : Session) : Session :=
  {| api_id_ := api_id_ s;
     is_cdn := is_cdn s;
     client := client s;
     connection := connection s;
     msg_count := msg_count s;
     current_salt := current_salt s;
     salt_writes := salt_writes s;
     pending_acks := v;
     recv_queue := recv_queue s;
     results := results s;
     ping_task := ping_task s;
     ping_task_event := ping_task_event s;
     next_salt_task := next_salt_task s;
     next_salt_task_event := next_salt_task_event s;
     net_worker_task := net_worker_task s;
     recv_task := recv_task s;
     is_connected := is_connected s |}.

Definition set_recv_queue (v : list (option Packet)) (s : Session) : Session :=
  {| api_id_ := api_id_ s;
     is_cdn := is_cdn s;
     client := client s;
     connection := connection s;
     msg_count := msg_count s;
     current_salt := current_salt s;
     salt_writes := salt_writes s;
     pending_acks := pending_acks s;
     recv_queue := v;
     results := results s;
     ping_task := ping_task s;
     ping_task_event := ping_task_event s;
     next_salt_task := next_salt_task s;
     next_salt_task_event := next_salt_task_event s;
     net_worker_task := net_worker_task s;
     recv_task := recv_task s;
     is_connected := is_connected s |}.

Definition set_results (v : gmap Z Result) (s : Session) : Session :=
  {| api_id_ := api_id_ s;
     is_cdn := is_cdn s;
     client := client s;
     connection := connection s;
     msg_count := msg_count s;
     current_salt := current_salt s;
     salt_writes := salt_writes s;
     pending_acks := pending_acks s;
     recv_queue := recv_queue s;
     results := v;
     ping_task := ping_task s;
     ping_task_event := ping_task_event s;
     next_salt_task := next_salt_task s;
     next_salt_task_event := next_salt_task_event s;
     net_worker_task := net_worker_task s;
     recv_task := recv_task s;
     is_connected := is_connected s |}.

Definition set_ping_task (v : option Task) (s : Session) : Session :=
  {| api_id_ := api_id_ s;
     is_cdn := is_cdn s;
     client := client s;
     connection := connection s;
     msg_count := msg_count s;
     current_salt := current_salt s;
     salt_writes := salt_writes s;
     pending_acks := pending_acks s;
     recv_queue := recv_queue s;
     results := results s;
     ping_task := v;
     ping_task_event := ping_task_event s;
     next_salt_task := next_salt_task s;
     next_salt_task_event := next_salt_task_event s;
     net_worker_task := net_worker_task s;
     recv_task := recv_task s;
     is_connected := is_connected s |}.

Definition set_ping_task_event (v : bool) (s : Session) : Session :=
  {| api_id_ := api_id_ s;
     is_cdn := is_cdn s;
     client := client s;
     connection := connection s;
     msg_count := msg_count s;
     current_salt := current_salt s;
     salt_writes := salt_writes s;
     pending_acks := pending_acks s;
     recv_queue := recv_queue s;
     results := results s;
     ping_task := ping_task s;
     ping_task_event := v;
     next_salt_task := next_salt_task s;
     next_salt_task_event := next_salt_task_event s;
     net_worker_task := net_worker_task s;
     recv_task := recv_task s;
     is_connected := is_connected s |}.

Definition set_next_salt_task (v : option Task) (s : Session) : Session :=
  {| api_id_ := api_id_ s;
     is_cdn := is_cdn s;
     client := client s;
     connection := connection s;
     msg_count := msg_count s;
     current_salt := current_salt s;
     salt_writes := salt_writes s;
     pending_acks := pending_acks s;
     recv_queue := recv_queue s;
     results := results s;
     ping_task := ping_task s;
     ping_task_event := ping_task_event s;
     next_salt_task := v;
     next_salt_task_event := next_salt_task_event s;
     net_worker_task := net_worker_task s;
     recv_task := recv_task s;
     is_connected := is_connected s |}.

Definition set_next_salt_task_event (v : bool) (s : Session) : Session :=
  {| api_id_ := api_id_ s;
     is_cdn := is_cdn s;
     client := client s;
     connection := connection s;
     msg_count := msg_count s;
     current_salt := current_salt s;
     salt_writes := salt_writes s;
     pending_acks := pending_acks s;
     recv_queue := recv_queue s;
     results := results s;
     ping_task := ping_task s;
     ping_task_event := ping_task_event s;
     next_salt_task := next_salt_task s;
     next_salt_task_event := v;
     net_worker_task := net_worker_task s;
     recv_task := recv_task s;
     is_connected := is_connected s |}.

Definition set_net_worker_task (v : option Task) (s : Session) : Session :=
  {| api_id_ := api_id_ s;
     is_cdn := is_cdn s;
     client := client s;
     connection := connection s;
     msg_count := msg_count s;
     current_salt := current_salt s;
     salt_writes := salt_writes s;
     pending_acks := pending_acks s;
     recv_queue := recv_queue s;
     results := results s;
     ping_task := ping_task s;
     ping_task_event := ping_task_event s;
     next_salt_task := next_salt_task s;
     next_salt_task_event := next_salt_task_event s;
     net_worker_task := v;
     recv_task := recv_task s;
     is_connected := is_connected s |}.

Definition set_recv_task (v : option Task) (s : Session) : Session :=
  {| api_id_ := api_id_ s;
     is_cdn := is_cdn s;
     client := client s;
     connection := connection s;
     msg_count := msg_count s;
     current_salt := current_salt s;
     salt_writes := salt_writes s;
     pending_acks := pending_acks s;
     recv_queue := recv_queue s;
     results := results s;
     ping_task := ping_task s;
     ping_task_event := ping_task_event s;
     next_salt_task := next_salt_task s;
     next_salt_task_event := next_salt_task_event s;
     net_worker_task := net_worker_task s;
     recv_task := v;
     is_connected := is_connected s |}.

Definition set_is_connected (v : bool) (s : Session) : Session :=
  {| api_id_ := api_id_ s;
     is_cdn := is_cdn s;
     client := client s;
     connection := connection s;
     msg_count := msg_count s;
     current_salt := current_salt s;
     salt_writes := salt_writes s;
     pending_acks := pending_acks s;
     recv_queue := recv_queue s;
     results := results s;
     ping_task := ping_task s;
     ping_task_event := ping_task_event s;
     next_salt_task := next_salt_task s;
     next_salt_task_event := next_salt_task_event s;
     net_worker_task := net_worker_task s;
     recv_task := recv_task s;
     is_connected := v |}.

(** [self.current_salt = v]; the ghost log records the assignment. *)
Definition set_current_salt (v : FutureSalt) (s : Session) : Session :=
  {| api_id_ := api_id_ s;
     is_cdn := is_cdn s;
     client := client s;
     connection := connection s;
     msg_count := msg_count s;
     current_salt := Some v;
     salt_writes := salt_writes s ++ [v];
     pending_acks := pending_acks s;
     recv_queue := recv_queue s;
     results := results s;
     ping_task := ping_task s;
     ping_task_event := ping_task_event s;
     next_salt_task := next_salt_task s;
     next_salt_task_event := next_salt_task_event s;
     net_worker_task := net_worker_task s;
     recv_task := recv_task s;
     is_connected := is_connected s |}.

(** ** Class constants *)

Definition WAIT_TIMEOUT : Z := 15.
Definition MAX_RETRIES : Z := 5.
Definition ACKS_THRESHOLD : nat := 8.
Definition PING_INTERVAL : Z := 5.

Definition BAD_MSG_DESCRIPTION : gmap Z string :=
  list_to_map
    [ (16, "[16] msg_id too low, the client time has to be synchronized");
      (17, "[17] msg_id too high, the client time has to be synchronized");
      (18, "[18] incorrect two lower order msg_id bits, the server expects client message msg_id to be divisible by 4");
      (19, "[19] container msg_id is the same as msg_id of a previously received message");
      (20, "[20] message too old, it cannot be verified by the server");
      (32, "[32] msg_seqno too low");
      (33, "[33] msg_seqno too high");
      (34, "[34] an even msg_seqno expected, but odd received");
      (35, "[35] odd msg_seqno expected, but even received");
      (48, "[48] incorrect server salt");
      (64, "[64] invalid container") ].

(** ["{}".format(n)] for an int *)
Definition format_int (n : Z) : string := NilZero.string_of_int (Z.to_int n).

(** ** The transport *)

(** [connection.send(payload)]: the next entry of the script says whether the
    call raises; past the end of the script it succeeds. *)
Definition conn_send (c : Connection) (p : Payload) : outcome unit * Connection :=
  match send_raises c with
  | Some e :: rest =>
      (Raise e,
       {| connect_raises := connect_raises c; send_raises := rest;
          closed := closed c; sent := sent c |})
  | None :: rest =>
      (Return tt,
       {| connect_raises := connect_raises c; send_raises := rest;
          closed := closed c; sent := sent c ++ [p] |})
  | [] =>
      (Return tt,
       {| connect_raises := connect_raises c; send_raises := [];
          closed := closed c; sent := sent c ++ [p] |})
  end.

(** [connection.close()] *)
Definition conn_close (c : Connection) : Connection :=
  {| connect_raises := connect_raises c; send_raises := send_raises c;
     closed := true; sent := sent c |}.

Section SessionCore.
Context {ext : Externals}.

(** ** Send path, up to the wait (lines 352-370) *)

Definition _send_begin (data : Request) (wait_response : bool) (s : Session)
  : outcome Z * Session :=
  let '(mid, sq) := msg_factory (msg_count s) data in
  let message := {| out_msg_id := mid; out_seq_no := sq; out_body := data |} in
  let s := set_msg_count (S (msg_count s)) s in
  let s :=
    if wait_response
    then set_results (<[mid := {| value := None; event := false |}]> (results s)) s
    else s in
  match current_salt s with
  | None => (Raise AttributeError, s)
  | Some cs =>
      let payload := {| p_message := message; p_salt := salt cs |} in
      match connection s with
      | None => (Raise AttributeError, s)
      | Some c =>
          match conn_send c payload with
          | (Return _, c') => (Return mid, set_connection (Some c') s)
          | (Raise e, c') =>
              let s := set_connection (Some c') s in
              if is_OSError e
              then (Raise e, set_results (delete mid (results s)) s)
              else (Raise e, s)
          end
      end
  end.

(** [_send(data, False)]: nothing is awaited after the transport call and
    [None] is returned. *)
Definition _send_nowait (data : Request) (s : Session)
  : outcome (option Body) * Session :=
  match _send_begin data false s with
  | (Return _, s') => (Return None, s')
  | (Raise e, s') => (Raise e, s')
  end.

(** ** Worker (lines 210-278) *)

(** [getattr(msg.body, "result", msg.body)] *)
Definition result_or_body (b : Body) : Body :=
  match b with
  | RpcResult _ r => r
  | _ => b
  end.

(** Lines 262-264. *)
Definition resolve (mid : option Z) (b : Body) (s : Session) : Session :=
  match mid with
  | None => s
  | Some i =>
      match results s !! i with
      | Some _ =>
          set_results
            (<[i := {| value := Some (result_or_body b); event := true |}]> (results s)) s
      | None => s
      end
  end.

(** [self.client.updates_queue.put_nowait(msg.body)] when there is a client. *)
Definition put_update (b : Body) (s : Session) : Session :=
  match client s with
  | None => s
  | Some c =>
      set_client
        (Some {| updates_queue := updates_queue c ++ [b];
                 disconnect_handler := disconnect_handler c;
                 disconnect_calls := disconnect_calls c |}) s
  end.

(** Lines 250-264: which request the body answers, then the resolution. *)
Definition dispatch_body (b : Body) (s : Session) : Session :=
  match b with
  | BadMsgNotification i _ | BadServerSalt i _ => resolve (Some i) b s
  | FutureSalts i _ | RpcResult i _ => resolve (Some i) b s
  | Pong i _ => resolve (Some i) b s
  | _ => resolve None b (put_update b s)
  end.

(** One turn of [for msg in messages] (lines 237-264). *)
Definition process_msg (s : Session) (msg : Message) : Session :=
  if negb (seq_no msg mod 2 =? 0) && bool_decide (msg_id msg ∈ pending_acks s)
  then s
  else
    let s :=
      if negb (seq_no msg mod 2 =? 0)
      then set_pending_acks ({[msg_id msg]} ∪ pending_acks s) s
      else s in
    match body msg with
    | MsgDetailedInfo a | MsgNewDetailedInfo a =>
        set_pending_acks ({[a]} ∪ pending_acks s) s
    | NewSessionCreated => s
    | b => dispatch_body b s
    end.

Definition dispatch (messages : list Message) (s : Session) : Session :=
  fold_left process_msg messages s.

(** Lines 266-274. *)
Definition flush_acks (s : Session) : Session :=
  if bool_decide (ACKS_THRESHOLD ≤ size (pending_acks s))%nat
  then
    match _send_nowait (MsgsAck (elements (pending_acks s))) s with
    | (Return _, s') => set_pending_acks ∅ s'
    | (Raise _, s') => s'
    end
  else s.

(** Lines 228-232. *)
Definition messages_of (data : Message) : list Message :=
  match body data with
  | MsgContainer ms => ms
  | _ => [data]
  end.

(** The body of the worker's [try] for one packet (lines 219-276); every
    exception is logged and the packet dropped. *)
Definition handle_packet (packet : Packet) (s : Session) : Session :=
  match current_salt s with
  | None => s
  | Some cs =>
      match unpack packet (salt cs) with
      | None => s
      | Some data => flush_acks (dispatch (messages_of data) s)
      end
  end.

(** The worker loop over the inbound queue: the sentinel [None] ends the
    task, an empty queue leaves it blocked in [recv_queue.get()]. *)
Fixpoint net_worker_loop (queue : list (option Packet)) (s : Session) : Session :=
  match queue with
  | [] => set_recv_queue [] s
  | None :: rest => set_net_worker_task (Some TaskDone) (set_recv_queue rest s)
  | Some packet :: rest => net_worker_loop rest (handle_packet packet s)
  end.

Definition net_worker (s : Session) : Session :=
  match net_worker_task s with
  | Some TaskRunning => net_worker_loop (recv_queue s) s
  | _ => s
  end.

(** ** Send path, after the transport call (lines 372-390) *)

(** While the caller waits on its slot ([asyncio.wait_for], line 374) the
    receive task enqueues the packets that arrive and the worker handles the
    queue: [arrivals] are the packets the receive task puts on the queue,
    those it does not read as the end of the stream (line 338).  The wait
    ends with the slot fired or with the timeout; the caller goes on either
    way. *)
Definition await_slot (arrivals : list Packet) (s : Session) : Session :=
  match recv_task s with
  | Some TaskRunning =>
      net_worker (set_recv_queue (recv_queue s ++ (Some <$> arrivals)) s)
  | _ => net_worker s
  end.

(** Lines 380-390: what the caller makes of the slot value. *)
Definition result_outcome (data : Request) (result : option Body)
  : outcome (option Body) :=
  match result with
  | None => Raise TimeoutError
  | Some (RpcError code message) =>
      Raise (Error (raise_it code message (type_of data)))
  | Some (BadMsgNotification _ code) =>
      Raise (PyException
               (default ("Error code " +:+ format_int code)
                        (BAD_MSG_DESCRIPTION !! code)))
  | Some v => Return (Some v)
  end.

(** Lines 378-390: [self.results.pop(msg_id).value] and its outcome. *)
Definition _send_end (data : Request) (mid : Z) (s : Session)
  : outcome (option Body) * Session :=
  match results s !! mid with
  | None => (Raise KeyError, s)
  | Some r => (result_outcome data (value r), set_results (delete mid (results s)) s)
  end.

Definition _send (data : Request) (wait_response : bool)
  (arrivals : list Packet) (s : Session) : outcome (option Body) * Session :=
  match _send_begin data wait_response s with
  | (Raise e, s') => (Raise e, s')
  | (Return mid, s') =>
      if wait_response
      then _send_end data mid (await_slot arrivals s')
      else (Return None, s')
  end.

(** ** [send] (lines 392-410) *)

(** What [send] awaits besides the transport. *)
Inductive Effect :=
| WaitConnected (timeout : Z) (was_set : bool)  (* wait_for(is_connected.wait(), timeout) *)
| Attempt                                       (* await self._send(data) *)
| Sleep (seconds : Q).                          (* asyncio.sleep(seconds) *)

(** [isinstance(e, (OSError, TimeoutError, InternalServerError))] *)
Definition retryable (e : exn) : bool :=
  is_OSError e || is_TimeoutError e || is_InternalServerError e.

(** [waits] holds, for each [_send] attempt in turn, the packets that arrive
    while it waits; the recursion of the source is on [retries], which a
    caller may pass negative, so the model recurses on the script and returns
    [None] when the script is too short for the run. *)
Fixpoint send (data : Request) (retries : Z) (waits : list (list Packet))
  (s : Session) : option (outcome (option Body) * Session * list Effect) :=
  match waits with
  | [] => None
  | arrivals :: waits' =>
      let w := WaitConnected WAIT_TIMEOUT (is_connected s) in
      match _send data true arrivals s with
      | (Return v, s') => Some (Return v, s', [w; Attempt])
      | (Raise e, s') =>
          if retryable e
          then
            if retries =? 0
            then Some (Raise e, s', [w; Attempt])
            else
              match send data (retries - 1) waits' s' with
              | Some (r, s'', t) => Some (r, s'', [w; Attempt; Sleep (Qmake 1 2)] ++ t)
              | None => None
              end
          else Some (Raise e, s', [w; Attempt])
      end
  end.

(** ** [stop] (lines 172-204) *)

(** [await task]: the ping and salt tasks see their event and leave their
    loop, the receive task reads EOF from the closed transport. *)
Definition finish (t : option Task) : option Task :=
  match t with
  | Some _ => Some TaskDone
  | None => None
  end.

(** [i.event.set()] *)
Definition fire (r : Result) : Result :=
  {| value := value r; event := true |}.

(** Lines 173-193: everything before the result slots are released.
    Awaiting [None] (a task that was never spawned) is a [TypeError]. *)
Definition stop_teardown (s : Session) : outcome unit * Session :=
  let s := set_is_connected false s in
  let s := set_ping_task_event true s in
  let s := set_next_salt_task_event true s in
  let s := set_ping_task (finish (ping_task s)) s in
  let s := set_next_salt_task (finish (next_salt_task s)) s in
  let s := set_ping_task_event false s in
  let s := set_next_salt_task_event false s in
  match connection s with
  | None => (Raise AttributeError, s)
  | Some c =>
      let s := set_connection (Some (conn_close c)) s in
      match recv_task s with
      | None => (Raise TypeError, s)
      | Some _ =>
          let s := set_recv_task (Some TaskDone) s in
          let s := set_recv_queue (recv_queue s ++ [None]) s in
          match net_worker_task s with
          | None => (Raise TypeError, s)
          | Some _ => (Return tt, net_worker s)
          end
      end
  end.

(** Lines 195-196. *)
Definition release_results (s : Session) : Session :=
  set_results (fire <$> results s) s.

(** Lines 198-202: the handler's own exceptions are logged and dropped. *)
Definition call_disconnect_handler (s : Session) : Session :=
  match client s with
  | Some c =>
      if disconnect_handler c
      then set_client
             (Some {| updates_queue := updates_queue c;
                      disconnect_handler := true;
                      disconnect_calls := S (disconnect_calls c) |}) s
      else s
  | None => s
  end.

Definition stop (s : Session) : outcome unit * Session :=
  match stop_teardown s with
  | (Raise e, s') => (Raise e, s')
  | (Return _, s') => (Return tt, call_disconnect_handler (release_results s'))
  end.

(** ** [start] (lines 126-170) *)

(** *** The salt task beside [start] (lines 300-330)

    [start] spawns [next_salt()] at line 140 and then, on a session that is
    not a CDN session, waits at line 143: the salt task runs during that
    wait, from one of its own waits to the next.  (A salt task of an earlier
    pass has been awaited by [stop] before the next pass begins.)  When its
    waits end is a matter of the clock and of [valid_until]; the script says
    so. *)

(** Lines 326-328, and what is not caught there: the task ends. *)
Definition next_salt_failed (e : exn) (s : Session) : Session :=
  if is_OSError e || is_TimeoutError e || is_Error e
  then set_next_salt_task (Some TaskDone)
         (set_connection (conn_close <$> connection s) s)
  else set_next_salt_task (Some TaskDone) s.

(** From the end of the wait of line 318 to the wait inside the [_send] of
    line 325 (line 374): with the event set the task leaves its loop;
    otherwise it hands [GetFutureSalts(1)] to the transport and waits on the
    slot, whose msg_id is returned.  The task had read
    [self.current_salt.valid_until] (line 308) before it waited. *)
Definition next_salt_request (s : Session) : Session * option Z :=
  match next_salt_task s with
  | Some TaskRunning =>
      if next_salt_task_event s
      then (set_next_salt_task (Some TaskDone) s, None)
      else
        match current_salt s with
        | None => (set_next_salt_task (Some TaskDone) s, None)
        | Some _ =>
            match _send_begin (GetFutureSalts 1) true s with
            | (Return mid, s) => (s, Some mid)
            | (Raise e, s) => (next_salt_failed e s, None)
            end
        end
  | _ => (s, None)
  end.

(** From the end of that wait to the head of the loop: the rest of [_send],
    then the assignment of line 325. *)
Definition next_salt_reply (mid : Z) (s : Session) : Session :=
  match _send_end (GetFutureSalts 1) mid s with
  | (Return (Some (FutureSalts _ (fs :: _))), s) => set_current_salt fs s
  | (Return _, s) => set_next_salt_task (Some TaskDone) s
  | (Raise e, s) => next_salt_failed e s
  end.

(** What happens while [start] waits at line 143, in order. *)
Inductive Meanwhile :=
| Arrive (packets : list Packet)  (* packets arrive and the worker handles them *)
| SaltTimer                       (* the wait of the salt task at line 318 ends *)
| SaltWake.                       (* the wait of the salt task on its slot ends *)

(** The session, and the slot the salt task is waiting on if it is. *)
Definition meanwhile_step (st : Session * option Z) (m : Meanwhile)
  : Session * option Z :=
  match m, st with
  | Arrive packets, (s, pending) => (await_slot packets s, pending)
  | SaltTimer, (s, None) => next_salt_request s
  | SaltTimer, (s, Some mid) => (s, Some mid)
  | SaltWake, (s, Some mid) => (next_salt_reply mid s, None)
  | SaltWake, (s, None) => (s, None)
  end.

(** [_send] as line 143 awaits it: the slot is read when the wait is over,
    after whatever went on meanwhile. *)
Definition _send_beside_salt_task (data : Request) (meanwhile : list Meanwhile)
  (arrivals : list Packet) (s : Session) : outcome (option Body) * Session :=
  match _send_begin data true s with
  | (Raise e, s') => (Raise e, s')
  | (Return mid, s') =>
      _send_end data mid
        (await_slot arrivals (fold_left meanwhile_step meanwhile (s', None)).1)
  end.

(** What one pass of the [while True] loop meets: the transport that
    [Connection(...)] builds, the packets that arrive while each of the
    three requests waits, and what goes on beside the third wait before
    [pass_init] arrives. *)
Record Pass := {
  pass_connection : Connection;
  pass_ping : list Packet;
  pass_salts : list Packet;
  pass_init : list Packet;
  pass_meanwhile : list Meanwhile
}.

(** [FutureSalt(0, 0, x)] *)
Definition bare_salt (x : Z) : FutureSalt :=
  {| valid_since := 0; valid_until := 0; salt := x |}.

Definition init_request (s : Session) : Request :=
  InvokeWithLayer layer
    (InitConnection (api_id_ s) DEVICE_MODEL SYSTEM_VERSION APP_VERSION
       "en" "" "en" GetConfig).

(** The [try] block (lines 131-159). *)
Definition start_body (p : Pass) (s : Session) : outcome unit * Session :=
  match connection s with
  | None => (Raise AttributeError, s)
  | Some c =>
  match connect_raises c with
  | Some e => (Raise e, s)
  | None =>
      let s := set_net_worker_task (Some TaskRunning) s in
      let s := set_recv_task (Some TaskRunning) s in
      let s := set_current_salt (bare_salt INITIAL_SALT) s in
      match _send (Ping 0) true (pass_ping p) s with
      | (Raise e, s) => (Raise e, s)
      | (Return r, s) =>
      match r ≫= new_server_salt_attr with
      | None => (Raise AttributeError, s)
      | Some nss =>
          let s := set_current_salt (bare_salt nss) s in
          match _send (GetFutureSalts 1) true (pass_salts p) s with
          | (Raise e, s) => (Raise e, s)
          | (Return (Some (FutureSalts _ (fs :: _))), s) =>
              let s := set_current_salt fs s in
              let s := set_next_salt_task (Some TaskRunning) s in
              let init :=
                if is_cdn s
                then (Return None, s)
                else _send_beside_salt_task (init_request s)
                       (pass_meanwhile p) (pass_init p) s in
              match init with
              | (Raise e, s) => (Raise e, s)
              | (Return _, s) => (Return tt, set_ping_task (Some TaskRunning) s)
              end
          | (Return (Some (FutureSalts _ [])), s) => (Raise IndexError, s)
          | (Return _, s) => (Raise AttributeError, s)
          end
      end
      end
  end
  end.

(** The loop: one [Pass] of the script per turn; [None] when the script ends
    before [start] does. *)
Fixpoint start (script : list Pass) (s : Session)
  : option (outcome unit * Session) :=
  match script with
  | [] => None
  | p :: rest =>
      let s := set_connection (Some (pass_connection p)) s in
      match start_body p s with
      | (Return _, s) => Some (Return tt, set_is_connected true s)
      | (Raise e, s) =>
          match stop s with
          | (Raise e', s) => Some (Raise e', s)
          | (Return _, s) =>
              if is_OSError e || is_TimeoutError e || is_Error e
              then start rest s
              else Some (Raise e, s)
          end
      end
  end.

(** [stop(); start()] awaited in turn. *)
Definition stop_then_start (script : list Pass) (s : Session)
  : option (outcome unit * Session) :=
  match stop s with
  | (Raise e, s') => Some (Raise e, s')
  | (Return _, s') => start script s'
  end.

(** ** [restart] (lines 206-208)

    [self.stop()] and [self.start()] are called without [await]: each call
    only builds a coroutine object, which is dropped without being run. *)
Definition restart (script : list Pass) (s : Session) : outcome unit * Session :=
  let _ := stop in
  let _ := start script in
  (Return tt, s).

(** ** Receive task (lines 332-349) *)

Fixpoint recv (incoming : list (option Packet)) (script : list Pass)
  (s : Session) : Session :=
  match incoming with
  | [] => s
  | Some packet :: rest =>
      if (length packet =? 4)%nat
      then
        let s := if is_connected s then snd (restart script s) else s in
        set_recv_task (Some TaskDone) s
      else recv rest script (set_recv_queue (recv_queue s ++ [Some packet]) s)
  | None :: _ =>
      let s := if is_connected s then snd (restart script s) else s in
      set_recv_task (Some TaskDone) s
  end.

End SessionCore.

(** ** A scripted instance

    A concrete choice of the external code, used to run the model: packets
    are short lists of integers that [demo_unpack] decodes, the n-th outbound
    message gets msg_id [4 * (n + 1)], and [new_server_salt] is an attribute
    of [BadServerSalt]. *)

Definition demo_update (i : Z) : Message :=
  mkMessage i 1 0 (TLObject "Update" i).

Definition demo_unpack (p : Packet) (_ : Z) : option Message :=
  match p with
  | [0; i; sq; req; pay] =>
      Some (mkMessage i sq 0 (RpcResult req (TLObject "Config" pay)))
  | [1; i; sq; bad; nss] => Some (mkMessage i sq 0 (BadServerSalt bad nss))
  | [2; i; sq; req; sv; till] =>
      Some (mkMessage i sq 0
              (FutureSalts req [{| valid_since := 0; valid_until := till; salt := sv |}]))
  | [3; i; sq; pay] => Some (mkMessage i sq 0 (TLObject "Update" pay))
  | [4; i; base] =>
      Some (mkMessage i 0 0
              (MsgContainer (map (fun k => demo_update (base + k)) [1; 2; 3; 4; 5; 6; 7; 8])))
  | _ => None
  end.

Definition demo : Externals :=
  {| INITIAL_SALT := 0;
     layer := 75;
     DEVICE_MODEL := "CPython 3.6.5";
     SYSTEM_VERSION := "Linux 4.15";
     APP_VERSION := "Pyrogram 0.7";
     unpack := demo_unpack;
     msg_factory := fun n _ => (4 * (Z.of_nat n + 1), 2 * Z.of_nat n + 1);
     raise_it := fun code message query =>
       {| exc_internal_server_error := code =? 500;
          exc_code := code;
          exc_message := message;
          exc_query_type := query |};
     new_server_salt_attr := fun b =>
       match b with
       | BadServerSalt _ nss => Some nss
       | _ => None
       end |}.

Definition fresh_connection (script : list (option exn)) : Connection :=
  {| connect_raises := None; send_raises := script; closed := false; sent := [] |}.

Definition demo_client : Client :=
  {| updates_queue := []; disconnect_handler := true; disconnect_calls := 0 |}.

(** The session as [__init__] leaves it (lines 93-124). *)
Definition new_session (api_id : Z) (cdn : bool) (c : option Client) : Session :=
  {| api_id_ := api_id;
     is_cdn := cdn;
     client := c;
     connection := None;
     msg_count := 0;
     current_salt := None;
     salt_writes := [];
     pending_acks := ∅;
     recv_queue := [];
     results := ∅;
     ping_task := None;
     ping_task_event := false;
     next_salt_task := None;
     next_salt_task_event := false;
     net_worker_task := None;
     recv_task := None;
     is_connected := false |}.

(** A started session: transport open, the four tasks running, salt 9. *)
Definition live_session : Session :=
  {| api_id_ := 1;
     is_cdn := false;
     client := Some demo_client;
     connection := Some (fresh_connection []);
     msg_count := 3;
     current_salt := Some {| valid_since := 0; valid_until := 3600; salt := 9 |};
     salt_writes := [];
     pending_acks := ∅;
     recv_queue := [];
     results := ∅;
     ping_task := Some TaskRunning;
     ping_task_event := false;
     next_salt_task := Some TaskRunning;
     next_salt_task_event := false;
     net_worker_task := Some TaskRunning;
     recv_task := Some TaskRunning;
     is_connected := true |}.

(** The script of a pass of [start] that succeeds: the ping (msg_id 4 on a
    new session) is answered with the server salt 77, [get_future_salts]
    (msg_id 8) with one salt, the layer announcement (msg_id 12) with a
    config. *)
Definition good_pass : Pass :=
  {| pass_connection := fresh_connection [];
     pass_ping := [[1; 101; 1; 4; 77]];
     pass_salts := [[2; 103; 1; 8; 88; 3600]];
     pass_init := [[0; 105; 1; 12; 5]];
     pass_meanwhile := [] |}.

(** ** Vocabulary of the statements *)

(** [msg.seq_no % 2 != 0]: a content message, to be acknowledged. *)
Definition needs_ack (msg : Message) : bool := negb (seq_no msg mod 2 =? 0).

(** The duplicate test of lines 237-239. *)
Definition is_duplicate (s : Session) (msg : Message) : bool :=
  needs_ack msg && bool_decide (msg_id msg ∈ pending_acks s).

(** Bodies the worker only takes note of (lines 243-248). *)
Definition is_notice (b : Body) : bool :=
  match b with
  | MsgDetailedInfo _ | MsgNewDetailedInfo _ | NewSessionCreated => true
  | _ => false
  end.

(** The request a body answers, by body type. *)
Definition answered_request (b : Body) : option Z :=
  match b with
  | BadMsgNotification i _ => Some i
  | BadServerSalt i _ => Some i
  | FutureSalts i _ => Some i
  | RpcResult i _ => Some i
  | Pong i _ => Some i
  | _ => None
  end.

(** A slot as the worker leaves it once resolved with body [b]. *)
Definition resolved_with (b : Body) : Result :=
  {| value := Some (result_or_body b); event := true |}.

(** The client after [updates_queue.put_nowait(b)]. *)
Definition with_update (b : Body) (c : Client) : Client :=
  {| updates_queue := updates_queue c ++ [b];
     disconnect_handler := disconnect_handler c;
     disconnect_calls := disconnect_calls c |}.

(** The state after the ack bookkeeping of lines 237-241. *)
Definition noted (s : Session) (msg : Message) : Session :=
  if needs_ack msg
  then set_pending_acks ({[msg_id msg]} ∪ pending_acks s) s
  else s.

(** Number of [_send] attempts in a trace of [send]. *)
Definition is_attempt (e : Effect) : bool :=
  match e with
  | Attempt => true
  | _ => false
  end.

Definition attempts (t : list Effect) : nat := length (List.filter is_attempt t).

(** The error codes of [BAD_MSG_DESCRIPTION]. *)
Definition described_codes : list Z := [16; 17; 18; 19; 20; 32; 33; 34; 35; 48; 64].

(** The trace of a [send] that goes round once more after a failed attempt. *)
Definition after_retry {A B : Type} (w : Effect) (r : option (A * B * list Effect))
  : option (A * B * list Effect) :=
  match r with
  | Some (a, b, t) => Some (a, b, [w; Attempt; Sleep (Qmake 1 2)] ++ t)
  | None => None
  end.


(** The ids the message factory will hand out from now on have no slot. *)
Definition fresh_ids {ext : Externals} (s : Session) : Prop :=
  ∀ n data, (msg_count s ≤ n)%nat → results s !! (msg_factory n data).1 = None.


(** Nothing was assigned to [current_salt] between [s] and [s']. *)
Definition salt_frame (s s' : Session) : Prop :=
  current_salt s' = current_salt s ∧ salt_writes s' = salt_writes s.

(** [current_salt] was assigned the salts [later], in that order, and
    nothing else. *)
Definition salt_advance (s s' : Session) (later : list FutureSalt) : Prop :=
  salt_writes s' = salt_writes s ++ later ∧
  current_salt s' =
    match last later with
    | Some x => Some x
    | None => current_salt s
    end.

(** The number of times the script lets the salt task read its slot. *)
Fixpoint salt_wakes (l : list Meanwhile) : nat :=
  match l with
  | [] => 0
  | SaltWake :: l => S (salt_wakes l)
  | _ :: l => salt_wakes l
  end.

(** What the salt task leaves alone among the attributes that only
    [start] and [stop] write. *)
Definition start_frame (s s' : Session) : Prop :=
  is_connected s' = is_connected s ∧
  ping_task s' = ping_task s ∧
  is_cdn s' = is_cdn s ∧
  api_id_ s' = api_id_ s.


(** The bodies of the requests the transport was given, in order. *)
Definition sent_bodies (s : Session) : list Request :=
  match connection s with
  | Some c => (fun p => out_body (p_message p)) <$> sent c
  | None => []
  end.

Definition queued_updates (s : Session) : list Body :=
  match client s with
  | Some c => updates_queue c
  | None => []
  end.

(** A live session with one caller waiting on the slot of request 12. *)
Definition waiting_session : Session :=
  set_results {[12 := {| value := None; event := false |}]} live_session.

(** An inbound update with an even seq_no. *)
Definition service_update : Message := mkMessage 1 2 0 (TLObject "Update" 1).


(** A pass of [start] on the live session, whose next msg_ids are 16, 20
    and 24. *)
Definition restart_pass : Pass :=
  {| pass_connection := fresh_connection [];
     pass_ping := [[1; 201; 1; 16; 77]];
     pass_salts := [[2; 203; 1; 20; 88; 3600]];
     pass_init := [[0; 205; 1; 24; 5]];
     pass_meanwhile := [] |}.

(** A pass whose transport raises on the first send, and the pass that
    follows it on a new session (msg_ids 8, 12 and 16). *)
Definition failing_pass : Pass :=
  {| pass_connection := fresh_connection [Some OSError];
     pass_ping := [];
     pass_salts := [];
     pass_init := [];
     pass_meanwhile := [] |}.

Definition retry_pass : Pass :=
  {| pass_connection := fresh_connection [];
     pass_ping := [[1; 101; 1; 8; 77]];
     pass_salts := [[2; 103; 1; 12; 88; 3600]];
     pass_init := [[0; 105; 1; 16; 5]];
     pass_meanwhile := [] |}.

(** The passing pass again, with the salt task going round its loop once
    while the layer announcement waits: its own [get_future_salts]
    (msg_id 16) is answered with the salt 99. *)
Definition salt_timer_pass : Pass :=
  {| pass_connection := fresh_connection [];
     pass_ping := [[1; 101; 1; 4; 77]];
     pass_salts := [[2; 103; 1; 8; 88; 3600]];
     pass_init := [[0; 105; 1; 12; 5]];
     pass_meanwhile := [SaltTimer; Arrive [[2; 107; 1; 16; 99; 7200]]; SaltWake] |}.

(** Inbound messages used in the runs below. *)
Definition config_reply : Message := mkMessage 101 1 0 (RpcResult 12 (TLObject "Config" 5)).
Definition salt_reply : Message := mkMessage 101 1 0 (BadServerSalt 12 77).

(** A packet that unpacks to a container of eight updates, msg_ids 1 to 8,
    all with an odd seq_no. *)
Definition eight_updates : Packet := [4; 300; 0].

(** Seven attempts' worth of waits during which nothing arrives. *)
Definition silent_waits : list (list Packet) := [[]; []; []; []; []; []; []].

(** ** Keepalive task (lines 280-298) *)

Section KeepAlive.
Context {ext : Externals}.

(** One turn of the [while True] of [ping]: the wait on [ping_task_event]
    ends the loop when the event is set ([Return false]); after a timeout of
    [PING_INTERVAL] a [PingDelayDisconnect] goes out without waiting for a
    reply, and OSError, TimeoutError and RPC errors are dropped
    ([Return true]: the loop goes round).  Any other exception leaves the
    loop and ends the task. *)
Definition ping_turn (s : Session) : outcome bool * Session :=
  if ping_task_event s
  then (Return false, s)
  else
    match _send (PingDelayDisconnect 0 (WAIT_TIMEOUT + 10)) false [] s with
    | (Return _, s') => (Return true, s')
    | (Raise e, s') =>
        if is_OSError e || is_TimeoutError e || is_Error e
        then (Return true, s')
        else (Raise e, s')
    end.

End KeepAlive.

(** ** Vocabulary of the further properties *)

(** The attributes that only [start] and [stop] write. *)
Definition control_frame (s s' : Session) : Prop :=
  is_connected s' = is_connected s ∧
  ping_task s' = ping_task s ∧
  next_salt_task s' = next_salt_task s ∧
  recv_task s' = recv_task s ∧
  ping_task_event s' = ping_task_event s ∧
  next_salt_task_event s' = next_salt_task_event s ∧
  is_cdn s' = is_cdn s ∧
  api_id_ s' = api_id_ s.

(** A [MsgsAck] payload listing at least [ACKS_THRESHOLD] ids. *)
Definition is_ack_payload (p : Payload) : Prop :=
  ∃ ids, out_body (p_message p) = MsgsAck ids ∧ (ACKS_THRESHOLD ≤ length ids)%nat.

(** The transport of [s'] is the one of [s] after the payloads [l] were
    sent on it, in that order. *)
Definition transport_extended (s s' : Session) (l : list Payload) : Prop :=
  match connection s, connection s' with
  | Some c, Some c' =>
      closed c' = closed c ∧ connect_raises c' = connect_raises c ∧
      sent c' = sent c ++ l
  | None, None => l = []
  | _, _ => False
  end.



(** What a payload shows of the request and of the salt it was packed with. *)
Definition payload_view (p : Payload) : Request * Z :=
  (out_body (p_message p), p_salt p).

(** What the receive task reads as the end of the stream (line 338). *)
Definition is_eof (p : option Packet) : bool :=
  match p with
  | None => true
  | Some packet => (length packet =? 4)%nat
  end.

(** The packets read before the end of the stream. *)
Fixpoint received (incoming : list (option Packet)) : list (option Packet) :=
  match incoming with
  | [] => []
  | p :: rest => if is_eof p then [] else p :: received rest
  end.

(** The next transport call does not raise. *)
Definition next_send_ok (c : Connection) : Prop :=
  match send_raises c with
  | Some _ :: _ => False
  | _ => True
  end.

(** The trace of [send] after [k] failed attempts and a last one: before
    each attempt the wait on [is_connected] (whose flag the attempts do not
    change), after each failed one the sleep. *)
Fixpoint retry_trace (k : nat) (connected : bool) : list Effect :=
  match k with
  | O => [WaitConnected WAIT_TIMEOUT connected; Attempt]
  | S k' =>
      [WaitConnected WAIT_TIMEOUT connected; Attempt; Sleep (Qmake 1 2)] ++
      retry_trace k' connected
  end.

(** Every slot of [s] is still in [s'], and fired if it was. *)
Definition slots_advance (s s' : Session) : Prop :=
  ∀ i r, results s !! i = Some r →
         ∃ r', results s' !! i = Some r' ∧ (event r = true → event r' = true).

(** The worker's turns over the packets [ps], oldest first. *)
Definition handle_all {ext : Externals} (ps : list Packet) (s : Session) : Session :=
  fold_left (fun s0 p => handle_packet p s0) ps s.

(** The session as [stop] has it when it awaits the worker (lines 173-191):
    flags cleared, the ping and salt tasks awaited, the transport [c]
    closed, the receive task ended and the sentinel queued. *)
Definition closing (c : Connection) (s : Session) : Session :=
  set_recv_queue (recv_queue s ++ [None])
    (set_recv_task (Some TaskDone)
       (set_connection (Some (conn_close c))
          (set_next_salt_task (finish (next_salt_task s))
             (set_ping_task (finish (ping_task s))
                (set_next_salt_task_event false
                   (set_ping_task_event false
                      (set_is_connected false s))))))).

(** Sessions and scripts for the runs of the further properties. *)

(** The live session once [stop] has run on it. *)
Definition stopped_session : Session := (stop (ext:=demo) live_session).2.

(** The live session with its worker gone. *)
Definition workerless_session : Session :=
  set_net_worker_task (Some TaskDone) live_session.

(** A pass whose [connect()] raises. *)
Definition unreachable_pass : Pass :=
  {| pass_connection :=
       {| connect_raises := Some OSError; send_raises := [];
          closed := false; sent := [] |};
     pass_ping := [];
     pass_salts := [];
     pass_init := [];
     pass_meanwhile := [] |}.



(** * Properties *)

Section WorkerFacts.
Context {ext : Externals}.

Lemma resolve_pending_acks mid b s :
  pending_acks (resolve mid b s) = pending_acks s.
Proof.
  unfold resolve. destruct mid as [i|]; [|done].
  by destruct (results s !! i).
Qed.

Lemma put_update_pending_acks b s :
  pending_acks (put_update b s) = pending_acks s.
Proof. unfold put_update. by destruct (client s). Qed.

Lemma put_update_results b s : results (put_update b s) = results s.
Proof. unfold put_update. by destruct (client s). Qed.

Lemma put_update_current_salt b s :
  current_salt (put_update b s) = current_salt s.
Proof. unfold put_update. by destruct (client s). Qed.

Lemma resolve_current_salt mid b s :
  current_salt (resolve mid b s) = current_salt s.
Proof.
  unfold resolve. destruct mid as [i|]; [|done].
  by destruct (results s !! i).
Qed.

Lemma resolve_client mid b s : client (resolve mid b s) = client s.
Proof.
  unfold resolve. destruct mid as [i|]; [|done].
  by destruct (results s !! i).
Qed.

(** [dispatch_body] is the resolution of the answered request, after the
    body was queued as an update when it answers none. *)
Lemma dispatch_body_eq b s :
  dispatch_body b s =
  match answered_request b with
  | Some i => resolve (Some i) b s
  | None => put_update b s
  end.
Proof. by destruct b. Qed.

Lemma dispatch_body_pending_acks b s :
  pending_acks (dispatch_body b s) = pending_acks s.
Proof.
  rewrite dispatch_body_eq. destruct (answered_request b).
  - apply resolve_pending_acks.
  - apply put_update_pending_acks.
Qed.

Lemma dispatch_body_current_salt b s :
  current_salt (dispatch_body b s) = current_salt s.
Proof.
  rewrite dispatch_body_eq. destruct (answered_request b).
  - apply resolve_current_salt.
  - apply put_update_current_salt.
Qed.

(** The three ways a turn of the loop can go. *)
Lemma process_msg_cases s msg :
  process_msg s msg =
  if is_duplicate s msg then s
  else match body msg with
       | MsgDetailedInfo a | MsgNewDetailedInfo a =>
           set_pending_acks ({[a]} ∪ pending_acks (noted s msg)) (noted s msg)
       | NewSessionCreated => noted s msg
       | b => dispatch_body b (noted s msg)
       end.
Proof. reflexivity. Qed.

Lemma noted_pending_acks s msg :
  pending_acks (noted s msg) =
  if needs_ack msg then {[msg_id msg]} ∪ pending_acks s else pending_acks s.
Proof. unfold noted. by destruct (needs_ack msg). Qed.

Lemma noted_results s msg : results (noted s msg) = results s.
Proof. unfold noted. by destruct (needs_ack msg). Qed.

Lemma noted_client s msg : client (noted s msg) = client s.
Proof. unfold noted. by destruct (needs_ack msg). Qed.

Lemma noted_current_salt s msg : current_salt (noted s msg) = current_salt s.
Proof. unfold noted. by destruct (needs_ack msg). Qed.

(** The loop only ever adds to [pending_acks]. *)
Lemma process_msg_pending_acks_mono s msg :
  pending_acks s ⊆ pending_acks (process_msg s msg).
Proof.
  rewrite process_msg_cases. destruct (is_duplicate s msg); [done|].
  assert (pending_acks s ⊆ pending_acks (noted s msg)) as Hn.
  { rewrite noted_pending_acks. destruct (needs_ack msg); set_solver. }
  destruct (body msg); cbv beta iota;
    rewrite ?dispatch_body_pending_acks; simpl; set_solver.
Qed.

Lemma dispatch_pending_acks_mono msgs s :
  pending_acks s ⊆ pending_acks (dispatch msgs s).
Proof.
  revert s. induction msgs as [|m msgs IH]; intros s; simpl; [done|].
  etrans; [apply (process_msg_pending_acks_mono s m)|apply IH].
Qed.

(** A content message is in [pending_acks] once its turn is over. *)
Lemma process_msg_acked s msg :
  needs_ack msg = true → msg_id msg ∈ pending_acks (process_msg s msg).
Proof.
  intros Hodd. rewrite process_msg_cases.
  destruct (is_duplicate s msg) eqn:Hdup.
  { unfold is_duplicate in Hdup. rewrite Hodd in Hdup.
    by apply bool_decide_eq_true in Hdup. }
  assert (msg_id msg ∈ pending_acks (noted s msg)) as Hn.
  { rewrite noted_pending_acks, Hodd. set_solver. }
  destruct (body msg); cbv beta iota;
    rewrite ?dispatch_body_pending_acks; simpl; set_solver.
Qed.

Lemma process_msg_current_salt s msg :
  current_salt (process_msg s msg) = current_salt s.
Proof.
  rewrite process_msg_cases. destruct (is_duplicate s msg); [done|].
  destruct (body msg); cbv beta iota; rewrite ?dispatch_body_current_salt;
    simpl; by rewrite ?noted_current_salt.
Qed.

End WorkerFacts.

Section WorkerDispatch.
Context {ext : Externals}.

(** C8: for a message the worker dispatches (neither skipped as a duplicate
    nor one of the notices it only records), the request to resolve is given
    by the body type ([answered_request]); only when that msg_id has a slot
    in [results] is the slot set to [body.result] (for an [RpcResult], else
    the body itself) and fired; with no slot [results] is left as it was; a
    body that answers no request goes to the client's updates queue and
    touches no slot. *)
Theorem worker_resolves_answered_request s msg :
  is_duplicate s msg = false →
  is_notice (body msg) = false →
  match answered_request (body msg) with
  | Some i =>
      client (process_msg s msg) = client s ∧
      match results s !! i with
      | Some _ =>
          results (process_msg s msg) =
          <[i := {| value := Some match body msg with
                                  | RpcResult _ r => r
                                  | b => b
                                  end;
                    event := true |}]> (results s)
      | None => results (process_msg s msg) = results s
      end
  | None =>
      results (process_msg s msg) = results s ∧
      client (process_msg s msg) = with_update (body msg) <$> client s
  end.
Proof.
  intros Hdup Hnotice. rewrite process_msg_cases, Hdup.
  destruct (body msg) eqn:Hb; try discriminate Hnotice; cbv beta iota;
    rewrite dispatch_body_eq; simpl.
  all: try (rewrite noted_results; destruct (results s !! _); simpl;
            rewrite ?noted_results, ?noted_client; by split).
  all: rewrite put_update_results, noted_results; split; [done|];
    unfold put_update; rewrite noted_client;
    destruct (client s) eqn:Hc; simpl; by rewrite ?noted_client, ?Hc.
Qed.

(** C4, amended: a content message (odd seq_no) whose msg_id is already in
    [pending_acks], be it from before the packet or from an earlier content
    message of the same packet, is skipped: its turn of the loop leaves the
    whole session as it was, so no ack is added, no slot resolved and no
    update queued for it. *)
Theorem duplicate_content_message_skipped s msgs dup :
  needs_ack dup = true →
  (msg_id dup ∈ pending_acks s ∨
   ∃ m, m ∈ msgs ∧ needs_ack m = true ∧ msg_id m = msg_id dup) →
  process_msg (dispatch msgs s) dup = dispatch msgs s ∧
  dispatch (msgs ++ [dup]) s = dispatch msgs s.
Proof.
  intros Hodd Hseen.
  assert (msg_id dup ∈ pending_acks (dispatch msgs s)) as Hin.
  { destruct Hseen as [Hin | (m & Hm & Hmodd & Hid)].
    - by apply dispatch_pending_acks_mono.
    - apply list_elem_of_split in Hm as (l1 & l2 & ->).
      unfold dispatch. rewrite fold_left_app. simpl.
      apply (dispatch_pending_acks_mono l2). rewrite <- Hid.
      by apply process_msg_acked. }
  assert (process_msg (dispatch msgs s) dup = dispatch msgs s) as Hskip.
  { rewrite process_msg_cases. unfold is_duplicate.
    by rewrite Hodd, bool_decide_eq_true_2. }
  split; [done|].
  unfold dispatch in *. by rewrite fold_left_app.
Qed.

(** C3, amended: when the worker handles a [BadServerSalt] whose bad_msg_id
    has a slot, it stores the body in the slot and fires it, and
    [current_salt] stays what it was; the caller released from the wait gets
    the [BadServerSalt] object back as the value of [_send]. *)
Theorem bad_server_salt_leaves_current_salt s msg i nss :
  body msg = BadServerSalt i nss →
  is_duplicate s msg = false →
  is_Some (results s !! i) →
  current_salt (process_msg s msg) = current_salt s ∧
  results (process_msg s msg) !! i =
    Some {| value := Some (BadServerSalt i nss); event := true |} ∧
  ∀ data, (_send_end data i (process_msg s msg)).1 =
          Return (Some (BadServerSalt i nss)).
Proof.
  intros Hb Hdup [r Hr]. split; [apply process_msg_current_salt|].
  assert (results (process_msg s msg) !! i =
          Some {| value := Some (BadServerSalt i nss); event := true |}) as Hres.
  { rewrite process_msg_cases, Hdup, Hb. simpl. unfold resolve.
    rewrite noted_results, Hr. simpl. by rewrite lookup_insert_eq. }
  split; [done|]. intros data. unfold _send_end. by rewrite Hres.
Qed.

End WorkerDispatch.

Section AckFlush.
Context {ext : Externals}.

Lemma process_msg_connection s msg :
  connection (process_msg s msg) = connection s.
Proof.
  unfold process_msg, dispatch_body, resolve, put_update.
  repeat case_match; done.
Qed.

Lemma dispatch_connection msgs s : connection (dispatch msgs s) = connection s.
Proof.
  revert s. induction msgs as [|m msgs IH]; intros s; simpl; [done|].
  unfold dispatch in IH. by rewrite IH, process_msg_connection.
Qed.

Lemma dispatch_current_salt msgs s :
  current_salt (dispatch msgs s) = current_salt s.
Proof.
  revert s. induction msgs as [|m msgs IH]; intros s; simpl; [done|].
  unfold dispatch in IH. by rewrite IH, process_msg_current_salt.
Qed.

(** C5: once a packet has been dispatched, the worker sends nothing while
    fewer than [ACKS_THRESHOLD] = 8 acks are pending; from 8 on it hands the
    transport exactly one more payload, a [MsgsAck] listing all of
    [pending_acks], without allocating a result slot; when the transport
    accepts it [pending_acks] is emptied, and when the transport raises
    (OSError, TimeoutError) nothing is sent and [pending_acks] is kept. *)
Theorem acks_flushed_after_packet s packet cs c data :
  current_salt s = Some cs →
  unpack packet (salt cs) = Some data →
  connection s = Some c →
  ((size (pending_acks (dispatch (messages_of data) s)) < ACKS_THRESHOLD)%nat →
   handle_packet packet s = dispatch (messages_of data) s) ∧
  ((ACKS_THRESHOLD ≤ size (pending_acks (dispatch (messages_of data) s)))%nat →
   match send_raises c with
   | Some e :: _ =>
       pending_acks (handle_packet packet s) =
         pending_acks (dispatch (messages_of data) s) ∧
       sent <$> connection (handle_packet packet s) = Some (sent c)
   | _ =>
       pending_acks (handle_packet packet s) = ∅ ∧
       results (handle_packet packet s) =
         results (dispatch (messages_of data) s) ∧
       ∃ mid sq,
         sent <$> connection (handle_packet packet s) =
         Some (sent c ++
               [{| p_message :=
                     {| out_msg_id := mid; out_seq_no := sq;
                        out_body :=
                          MsgsAck (elements
                                     (pending_acks (dispatch (messages_of data) s))) |};
                   p_salt := salt cs |}])
   end).
Proof.
  intros Hsalt Hunpack Hconn. unfold handle_packet. rewrite Hsalt, Hunpack.
  pose proof (dispatch_connection (messages_of data) s) as Hc1.
  pose proof (dispatch_current_salt (messages_of data) s) as Hs1.
  rewrite Hconn in Hc1. rewrite Hsalt in Hs1.
  set (s1 := dispatch (messages_of data) s) in *.
  unfold flush_acks. split.
  - intros Hlt. by rewrite bool_decide_eq_false_2 by lia.
  - intros Hge. rewrite bool_decide_eq_true_2 by done.
    unfold _send_nowait, _send_begin.
    destruct (msg_factory (msg_count s1) (MsgsAck (elements (pending_acks s1))))
      as [mid sq].
    simpl. rewrite Hs1, Hc1. unfold conn_send.
    destruct (send_raises c) as [|[e|] rest]; simpl.
    + repeat split; eauto.
    + destruct (is_OSError e); by simpl; rewrite ?Hc1.
    + repeat split; eauto.
Qed.

End AckFlush.

Section SendPath.
Context {ext : Externals}.

Lemma described_codes_dom code :
  code ∉ described_codes → BAD_MSG_DESCRIPTION !! code = None.
Proof.
  intros Hnot. apply not_elem_of_list_to_map_1. exact Hnot.
Qed.

(** C7: the value found in the slot decides how [_send] ends: no value
    raises [TimeoutError]; an [RpcError] raises what [Error.raise_it] builds
    from it and the type of the request, that is the class of the request
    that was sent (of the outer request when it wraps another one); a
    [BadMsgNotification] raises an exception whose text is the entry of
    [BAD_MSG_DESCRIPTION] for its error_code, or "Error code N" when the code
    has no entry; any other value is returned. *)
Theorem slot_value_decides_outcome data :
  result_outcome data None = Raise TimeoutError ∧
  (∀ code message,
     result_outcome data (Some (RpcError code message)) =
     Raise (Error (raise_it code message
                     match data with
                     | Ping _ => "Ping"
                     | PingDelayDisconnect _ _ => "PingDelayDisconnect"
                     | GetFutureSalts _ => "GetFutureSalts"
                     | MsgsAck _ => "MsgsAck"
                     | GetConfig => "GetConfig"
                     | InitConnection _ _ _ _ _ _ _ _ => "InitConnection"
                     | InvokeWithLayer _ _ => "InvokeWithLayer"
                     | TLFunction name _ => name
                     end))) ∧
  (∀ i code text,
     BAD_MSG_DESCRIPTION !! code = Some text →
     result_outcome data (Some (BadMsgNotification i code)) =
     Raise (PyException text)) ∧
  (∀ i code,
     code ∉ described_codes →
     result_outcome data (Some (BadMsgNotification i code)) =
     Raise (PyException ("Error code " +:+ format_int code))) ∧
  (∀ v,
     (∀ code message, v ≠ RpcError code message) →
     (∀ i code, v ≠ BadMsgNotification i code) →
     result_outcome data (Some v) = Return (Some v)) ∧
  (∀ mid r s,
     results s !! mid = Some r →
     _send_end data mid s =
     (result_outcome data (value r), set_results (delete mid (results s)) s)).
Proof.
  repeat split.
  - intros i code text Htext. simpl. by rewrite Htext.
  - intros i code Hnot. simpl. by rewrite described_codes_dom.
  - intros v Hrpc Hbad. destruct v; try done.
    + by destruct (Hbad bad_msg_id error_code).
    + by destruct (Hrpc error_code error_message).
  - intros mid r s Hr. unfold _send_end. by rewrite Hr.
Qed.

Lemma retryable_spec e :
  retryable e = true ↔
  e = OSError ∨ e = TimeoutError ∨
  ∃ x, e = Error x ∧ exc_internal_server_error x = true.
Proof.
  split.
  - destruct e as [| |x| | | | |]; simpl; try done; eauto.
  - intros [-> | [-> | (x & -> & Hx)]]; simpl; done.
Qed.

(** One turn of [send], spelled out. *)
Lemma send_unfold data retries arrivals waits s :
  send data retries (arrivals :: waits) s =
  match _send data true arrivals s with
  | (Return v, s') =>
      Some (Return v, s', [WaitConnected WAIT_TIMEOUT (is_connected s); Attempt])
  | (Raise e, s') =>
      if retryable e && negb (retries =? 0)
      then after_retry (WaitConnected WAIT_TIMEOUT (is_connected s))
             (send data (retries - 1) waits s')
      else Some (Raise e, s', [WaitConnected WAIT_TIMEOUT (is_connected s); Attempt])
  end.
Proof.
  simpl. destruct (_send data true arrivals s) as [[v|e] s']; [done|].
  destruct (retryable e); [|done]. simpl.
  destruct (retries =? 0); [done|]. simpl.
  by destruct (send data (retries - 1) waits s') as [[[r s''] t]|].
Qed.

Lemma send_attempts_bound data waits :
  ∀ retries s r s' t,
    0 ≤ retries →
    send data retries waits s = Some (r, s', t) →
    Z.of_nat (attempts t) ≤ retries + 1.
Proof.
  induction waits as [|arrivals waits IH]; intros retries s r s' t Hpos; [done|].
  rewrite send_unfold.
  destruct (_send data true arrivals s) as [[v|e] s1].
  { intros [= <- <- <-]. unfold attempts. simpl. lia. }
  destruct (retryable e); simpl.
  2: { intros [= <- <- <-]. unfold attempts. simpl. lia. }
  destruct (retries =? 0) eqn:Hz; simpl.
  { intros [= <- <- <-]. unfold attempts. simpl. lia. }
  destruct (send data (retries - 1) waits s1) as [[[r1 s2] t1]|] eqn:Hrec; [|done].
  simpl. intros [= <- <- <-].
  apply Z.eqb_neq in Hz.
  specialize (IH (retries - 1) s1 r1 s2 t1 ltac:(lia) Hrec).
  unfold attempts in *. simpl. lia.
Qed.

Lemma send_total data waits :
  ∀ retries s,
    0 ≤ retries →
    retries < Z.of_nat (length waits) →
    is_Some (send data retries waits s).
Proof.
  induction waits as [|arrivals waits IH]; intros retries s Hpos Hlen.
  { simpl in Hlen. lia. }
  rewrite send_unfold.
  destruct (_send data true arrivals s) as [[v|e] s1]; [by eexists|].
  destruct (retryable e); simpl; [|by eexists].
  destruct (retries =? 0) eqn:Hz; simpl; [by eexists|].
  apply Z.eqb_neq in Hz.
  destruct (IH (retries - 1) s1) as [[[r1 s2] t1] Hrec]; [lia|simpl in Hlen; lia|].
  rewrite Hrec. by eexists.
Qed.

Lemma send_sleeps data waits :
  ∀ retries s r s' t q,
    send data retries waits s = Some (r, s', t) →
    Sleep q ∈ t → q = Qmake 1 2.
Proof.
  induction waits as [|arrivals waits IH]; intros retries s r s' t q; [done|].
  rewrite send_unfold.
  destruct (_send data true arrivals s) as [[v|e] s1].
  { intros [= <- <- <-] Hin.
    repeat (apply elem_of_cons in Hin as [?|Hin]; [done|]).
    by apply elem_of_nil in Hin. }
  destruct (retryable e && negb (retries =? 0)).
  2: { intros [= <- <- <-] Hin.
       repeat (apply elem_of_cons in Hin as [?|Hin]; [done|]).
       by apply elem_of_nil in Hin. }
  destruct (send data (retries - 1) waits s1) as [[[r1 s2] t1]|] eqn:Hrec; [|done].
  simpl. intros [= <- <- <-] Hin.
  apply elem_of_cons in Hin as [?|Hin]; [done|].
  apply elem_of_cons in Hin as [?|Hin]; [done|].
  apply elem_of_cons in Hin as [[= ->]|Hin]; [done|].
  by eapply IH.
Qed.

(** C6: [send] waits on [is_connected] for [WAIT_TIMEOUT], then calls
    [_send]; a result or an error that is not retryable ends it there; on a
    retryable error (OSError, TimeoutError, InternalServerError) it
    propagates the error when [retries] is 0 and otherwise, whatever the
    sign of [retries], sleeps half a second and goes round with
    [retries - 1]; so with [retries] at least 0 no more than [retries + 1]
    attempts are made (6 for the default 5), and a script with that many
    entries always carries [send] to its end. *)
Theorem send_retry_policy data retries waits s :
  (∀ arrivals waits',
     waits = arrivals :: waits' →
     send data retries waits s =
     match _send data true arrivals s with
     | (Return v, s') =>
         Some (Return v, s', [WaitConnected WAIT_TIMEOUT (is_connected s); Attempt])
     | (Raise e, s') =>
         if retryable e && negb (retries =? 0)
         then after_retry (WaitConnected WAIT_TIMEOUT (is_connected s))
                (send data (retries - 1) waits' s')
         else Some (Raise e, s', [WaitConnected WAIT_TIMEOUT (is_connected s); Attempt])
     end) ∧
  (∀ e, retryable e = true ↔
        e = OSError ∨ e = TimeoutError ∨
        ∃ x, e = Error x ∧ exc_internal_server_error x = true) ∧
  (0 ≤ retries → retries < Z.of_nat (length waits) →
   is_Some (send data retries waits s)) ∧
  (∀ r s' t,
     send data retries waits s = Some (r, s', t) →
     (0 ≤ retries → Z.of_nat (attempts t) ≤ retries + 1) ∧
     (retries = MAX_RETRIES → (attempts t ≤ 6)%nat) ∧
     ∀ q, Sleep q ∈ t → q = Qmake 1 2).
Proof.
  split; [|split; [|split]].
  - intros arrivals waits' ->. apply send_unfold.
  - apply retryable_spec.
  - intros Hpos Hlen. by apply send_total.
  - intros r s' t Hsend. split; [|split].
    + intros Hpos. by eapply send_attempts_bound.
    + intros ->.
      assert (Z.of_nat (attempts t) ≤ MAX_RETRIES + 1) as Hb
        by (eapply send_attempts_bound; [|exact Hsend]; unfold MAX_RETRIES; lia).
      unfold MAX_RETRIES in Hb. lia.
    + intros q. by eapply send_sleeps.
Qed.

(** C10: when [is_connected] is not set, the wait at the head of [send]
    times out and nothing comes of it: [send] goes on to [_send], and what
    [_send] returns or raises is what [send] hands on (or retries); on a
    session that was never started that is the [AttributeError] of
    [self.current_salt.salt]. *)
Theorem send_ignores_connected_timeout data retries arrivals waits s :
  is_connected s = false →
  send data retries (arrivals :: waits) s =
  match _send data true arrivals s with
  | (Return v, s') =>
      Some (Return v, s', [WaitConnected WAIT_TIMEOUT false; Attempt])
  | (Raise e, s') =>
      if retryable e && negb (retries =? 0)
      then after_retry (WaitConnected WAIT_TIMEOUT false)
             (send data (retries - 1) waits s')
      else Some (Raise e, s', [WaitConnected WAIT_TIMEOUT false; Attempt])
  end ∧
  (current_salt s = None →
   ∃ s', send data retries (arrivals :: waits) s =
         Some (Raise AttributeError, s', [WaitConnected WAIT_TIMEOUT false; Attempt])).
Proof.
  intros Hconn. rewrite send_unfold, Hconn. split; [done|].
  intros Hsalt. unfold _send, _send_begin.
  destruct (msg_factory (msg_count s) data) as [mid sq]. simpl.
  rewrite Hsalt. simpl. by eexists.
Qed.

End SendPath.

Section WorkerInvariants.
Context {ext : Externals}.

Lemma salt_frame_refl s : salt_frame s s.
Proof. by split. Qed.

Lemma salt_frame_trans s1 s2 s3 :
  salt_frame s1 s2 → salt_frame s2 s3 → salt_frame s1 s3.
Proof. intros [H1 H2] [H3 H4]. split; congruence. Qed.

Lemma process_msg_salt_frame s msg : salt_frame s (process_msg s msg).
Proof.
  unfold salt_frame, process_msg, dispatch_body, resolve, put_update.
  repeat case_match; done.
Qed.

Lemma dispatch_salt_frame msgs s : salt_frame s (dispatch msgs s).
Proof.
  revert s. induction msgs as [|m msgs IH]; intros s; [apply salt_frame_refl|].
  eapply salt_frame_trans; [apply (process_msg_salt_frame s m)|apply IH].
Qed.

Lemma _send_begin_salt_frame data w s : salt_frame s (_send_begin data w s).2.
Proof.
  unfold salt_frame, _send_begin.
  destruct (msg_factory (msg_count s) data) as [mid sq].
  destruct w; simpl; repeat case_match; done.
Qed.

Lemma flush_acks_salt_frame s : salt_frame s (flush_acks s).
Proof.
  unfold flush_acks, _send_nowait. case_bool_decide; [|apply salt_frame_refl].
  pose proof (_send_begin_salt_frame
                (MsgsAck (elements (pending_acks s))) false s) as Hf.
  destruct (_send_begin _ false s) as [[v|e] s']; exact Hf.
Qed.

Lemma handle_packet_salt_frame packet s : salt_frame s (handle_packet packet s).
Proof.
  unfold handle_packet.
  destruct (current_salt s) as [cs|]; [|apply salt_frame_refl].
  destruct (unpack packet (salt cs)) as [data|]; [|apply salt_frame_refl].
  eapply salt_frame_trans; [apply dispatch_salt_frame|apply flush_acks_salt_frame].
Qed.

Lemma net_worker_loop_salt_frame queue s : salt_frame s (net_worker_loop queue s).
Proof.
  revert s. induction queue as [|[packet|] queue IH]; intros s; simpl;
    [by split|..|by split].
  eapply salt_frame_trans; [apply handle_packet_salt_frame|apply IH].
Qed.

Lemma net_worker_salt_frame s : salt_frame s (net_worker s).
Proof.
  unfold net_worker. destruct (net_worker_task s) as [[]|];
    [apply net_worker_loop_salt_frame|apply salt_frame_refl..].
Qed.

Lemma await_slot_salt_frame arrivals s : salt_frame s (await_slot arrivals s).
Proof.
  unfold await_slot. destruct (recv_task s) as [[]|];
    try apply net_worker_salt_frame.
  eapply salt_frame_trans; [|apply net_worker_salt_frame]. by split.
Qed.

Lemma _send_salt_frame data w arrivals s : salt_frame s (_send data w arrivals s).2.
Proof.
  unfold _send.
  pose proof (_send_begin_salt_frame data w s) as Hb.
  destruct (_send_begin data w s) as [[mid|e] s1]; [|exact Hb].
  destruct w; [|exact Hb]. simpl in Hb.
  eapply salt_frame_trans; [exact Hb|].
  eapply salt_frame_trans; [apply await_slot_salt_frame|].
  unfold _send_end. by destruct (results _ !! mid).
Qed.

Lemma stop_teardown_salt_frame s : salt_frame s (stop_teardown s).2.
Proof.
  unfold stop_teardown. cbv zeta.
  repeat case_match; try (split; reflexivity).
  eapply salt_frame_trans; [|apply net_worker_salt_frame]. split; reflexivity.
Qed.

Lemma release_results_salt_frame s : salt_frame s (release_results s).
Proof. split; reflexivity. Qed.

Lemma call_disconnect_handler_salt_frame s :
  salt_frame s (call_disconnect_handler s).
Proof.
  unfold call_disconnect_handler. repeat case_match; split; reflexivity.
Qed.

Lemma stop_salt_frame s : salt_frame s (stop s).2.
Proof.
  unfold stop. pose proof (stop_teardown_salt_frame s) as Ht.
  destruct (stop_teardown s) as [[[]|e] s1]; [|exact Ht].
  eapply salt_frame_trans; [exact Ht|].
  eapply salt_frame_trans;
    [apply release_results_salt_frame|apply call_disconnect_handler_salt_frame].
Qed.

(** *** What the worker does to the result slots *)

Lemma process_msg_msg_count s msg : msg_count (process_msg s msg) = msg_count s.
Proof.
  unfold process_msg, dispatch_body, resolve, put_update.
  repeat case_match; done.
Qed.

(** A turn of the loop leaves [results] alone or resolves one slot that
    exists. *)
Lemma process_msg_results s msg :
  results (process_msg s msg) = results s ∨
  ∃ i b, is_Some (results s !! i) ∧
         results (process_msg s msg) = <[i := resolved_with b]> (results s).
Proof.
  assert (∀ mid b s0,
            results (resolve mid b s0) = results s0 ∨
            ∃ i b', is_Some (results s0 !! i) ∧
                    results (resolve mid b s0) = <[i := resolved_with b']> (results s0))
    as Hresolve.
  { intros [i|] b s0; simpl; [|by left].
    destruct (results s0 !! i) eqn:Hi; [|by left].
    right. exists i, b. split; [by eexists|done]. }
  rewrite process_msg_cases. destruct (is_duplicate s msg); [by left|].
  destruct (body msg); cbv beta iota; rewrite ?dispatch_body_eq;
    cbn [answered_request].
  all: try (left; by rewrite ?put_update_results, ?noted_results).
  all: try (left; simpl; by apply noted_results).
  all: rewrite <- (noted_results s msg); apply Hresolve.
Qed.








End WorkerInvariants.

Section Lifecycle.
Context {ext : Externals}.




Lemma stop_unfold s :
  stop s =
  match stop_teardown s with
  | (Raise e, s') => (Raise e, s')
  | (Return _, s') => (Return tt, call_disconnect_handler (release_results s'))
  end.
Proof. reflexivity. Qed.


(** [restart] hands the session back as it got it. *)
Lemma restart_noop script s : restart script s = (Return tt, s).
Proof. reflexivity. Qed.

End Lifecycle.

(** * Runs of the scripted instance *)

Section Runs.


Lemma waiting_session_fresh_ids : fresh_ids (ext:=demo) waiting_session.
Proof.
  intros n data Hn. unfold waiting_session. simpl in *.
  apply lookup_singleton_ne. lia.
Defined.

(** The worker on a reply to a waiting request. *)
Lemma worker_resolves_answered_request_witness :
  results (process_msg waiting_session config_reply) =
  <[12 := {| value := Some (TLObject "Config" 5); event := true |}]>
    (results waiting_session).
Proof.
  assert (is_duplicate waiting_session config_reply = false) as Hdup
    by (vm_compute; reflexivity).
  assert (is_notice (body config_reply) = false) as Hnotice by reflexivity.
  exact (proj2 (worker_resolves_answered_request
                  waiting_session config_reply Hdup Hnotice)).
Defined.

(** Two even-numbered copies of an update are both queued, and a container
    that arrives again after its acks were flushed is dispatched and
    acknowledged a second time (the ids are listed in the iteration order of
    the set). *)
Lemma duplicate_dispatched_twice_counterexample :
  queued_updates (dispatch [service_update; service_update] live_session) =
    [TLObject "Update" 1; TLObject "Update" 1] ∧
  sent_bodies (net_worker_loop (ext:=demo)
                 [Some eight_updates; Some eight_updates] live_session) =
    [MsgsAck [7; 5; 3; 6; 8; 4; 2; 1]; MsgsAck [7; 5; 3; 6; 8; 4; 2; 1]] ∧
  queued_updates (net_worker_loop (ext:=demo)
                    [Some eight_updates; Some eight_updates] live_session) =
    (TLObject "Update" <$> [1; 2; 3; 4; 5; 6; 7; 8]) ++
    (TLObject "Update" <$> [1; 2; 3; 4; 5; 6; 7; 8]).
Proof. vm_compute. repeat split; reflexivity. Qed.

Lemma duplicate_content_message_skipped_witness :
  dispatch [demo_update 1; demo_update 2; demo_update 1] live_session =
  dispatch [demo_update 1; demo_update 2] live_session.
Proof.
  assert (needs_ack (demo_update 1) = true) as Hodd by reflexivity.
  assert (∃ m, m ∈ [demo_update 1; demo_update 2] ∧ needs_ack m = true ∧
               msg_id m = msg_id (demo_update 1)) as Hseen.
  { exists (demo_update 1). split; [apply elem_of_cons; by left|]. split; reflexivity. }
  exact (proj2 (duplicate_content_message_skipped live_session
                  [demo_update 1; demo_update 2] (demo_update 1)
                  Hodd (or_intror Hseen))).
Defined.

(** A caller sends request 16 and the server answers with
    [BadServerSalt] (new_server_salt 77): [_send] returns that object and
    the salt in use is still 9. *)
Lemma bad_server_salt_counterexample :
  (_send (ext:=demo) (TLFunction "help.GetNearestDc" 0) true
     [[1; 201; 1; 16; 77]] live_session).1 =
    Return (Some (BadServerSalt 16 77)) ∧
  salt <$> current_salt live_session = Some 9 ∧
  salt <$> current_salt
             (_send (ext:=demo) (TLFunction "help.GetNearestDc" 0) true
                [[1; 201; 1; 16; 77]] live_session).2 = Some 9 ∧
  salt <$> current_salt
             (_send (ext:=demo) (TLFunction "help.GetNearestDc" 0) true
                [[1; 201; 1; 16; 77]] live_session).2 ≠ Some 77.
Proof. vm_compute. repeat split; try reflexivity. discriminate. Qed.

Lemma bad_server_salt_leaves_current_salt_witness :
  current_salt (process_msg waiting_session salt_reply) =
    current_salt waiting_session ∧
  results (process_msg waiting_session salt_reply) !! 12 =
    Some {| value := Some (BadServerSalt 12 77); event := true |}.
Proof.
  assert (is_duplicate waiting_session salt_reply = false) as Hdup
    by (vm_compute; reflexivity).
  assert (is_Some (results waiting_session !! 12)) as Hslot
    by (vm_compute; eexists; reflexivity).
  destruct (bad_server_salt_leaves_current_salt (ext:=demo)
              waiting_session salt_reply 12 77 eq_refl Hdup Hslot)
    as (Hsalt & Hres & _).
  split; [exact Hsalt|exact Hres].
Defined.

(** Eight content messages in one packet on a live session: one [MsgsAck]
    goes out and [pending_acks] is emptied. *)
Lemma acks_flushed_after_packet_witness :
  pending_acks (handle_packet (ext:=demo) eight_updates live_session) = ∅ ∧
  ∃ mid sq ids,
    sent <$> connection (handle_packet (ext:=demo) eight_updates live_session) =
    Some [{| p_message :=
               {| out_msg_id := mid; out_seq_no := sq; out_body := MsgsAck ids |};
             p_salt := 9 |}].
Proof.
  assert (current_salt live_session =
          Some {| valid_since := 0; valid_until := 3600; salt := 9 |}) as Hsalt
    by reflexivity.
  assert (unpack (Externals := demo) eight_updates 9 =
          Some (mkMessage 300 0 0
                  (MsgContainer (demo_update <$> [1; 2; 3; 4; 5; 6; 7; 8])))) as Hunpack
    by reflexivity.
  assert (connection live_session = Some (fresh_connection [])) as Hconn
    by reflexivity.
  destruct (acks_flushed_after_packet (ext:=demo) live_session eight_updates
              _ _ _ Hsalt Hunpack Hconn) as [_ Hflush].
  assert (size (pending_acks
                  (dispatch
                     (messages_of
                        (mkMessage 300 0 0
                           (MsgContainer (demo_update <$> [1; 2; 3; 4; 5; 6; 7; 8]))))
                     live_session)) = 8%nat) as Height
    by (vm_compute; reflexivity).
  assert (le ACKS_THRESHOLD
            (size (pending_acks
                     (dispatch
                        (messages_of
                           (mkMessage 300 0 0
                              (MsgContainer (demo_update <$> [1; 2; 3; 4; 5; 6; 7; 8]))))
                        live_session)))) as Hsize
    by (rewrite Height; reflexivity).
  destruct (Hflush Hsize) as (Hacks & _ & mid & sq & Hsent).
  split; [exact Hacks|].
  exists mid, sq. eexists. exact Hsent.
Defined.

(** The default five retries on a transport where no reply ever arrives. *)
Lemma send_retry_policy_witness :
  ∃ r s' t,
    send (ext:=demo) GetConfig MAX_RETRIES silent_waits live_session =
      Some (r, s', t) ∧
    (attempts t ≤ 6)%nat.
Proof.
  destruct (send_retry_policy (ext:=demo) GetConfig MAX_RETRIES silent_waits
              live_session) as (_ & _ & Htotal & Hbound).
  destruct Htotal as [[[r s'] t] Hsend];
    [unfold MAX_RETRIES; lia|vm_compute; reflexivity|].
  exists r, s', t. split; [exact Hsend|].
  destruct (Hbound r s' t Hsend) as (_ & Hsix & _). apply Hsix. reflexivity.
Defined.

(** The same [RpcError] found in the slot of a [GetConfig] and in the slot
    of a layer announcement: the error raised names the class of the request
    that was sent. *)
Lemma slot_value_decides_outcome_witness :
  result_outcome (ext:=demo) GetConfig (Some (BadMsgNotification 12 99)) =
    Raise (PyException "Error code 99") ∧
  result_outcome (ext:=demo) GetConfig (Some (BadMsgNotification 12 48)) =
    Raise (PyException "[48] incorrect server salt") ∧
  result_outcome (ext:=demo) GetConfig (Some (RpcError 400 "PHONE_MIGRATE")) =
    Raise (Error {| exc_internal_server_error := false; exc_code := 400;
                    exc_message := "PHONE_MIGRATE";
                    exc_query_type := "GetConfig" |}) ∧
  result_outcome (ext:=demo) (InvokeWithLayer 75 GetConfig)
    (Some (RpcError 400 "PHONE_MIGRATE")) =
    Raise (Error {| exc_internal_server_error := false; exc_code := 400;
                    exc_message := "PHONE_MIGRATE";
                    exc_query_type := "InvokeWithLayer" |}).
Proof.
  destruct (slot_value_decides_outcome (ext:=demo) GetConfig)
    as (_ & Hrpc & Hknown & Hunknown & _).
  destruct (slot_value_decides_outcome (ext:=demo) (InvokeWithLayer 75 GetConfig))
    as (_ & Hrpc' & _).
  split; [|split; [|split]].
  - apply (Hunknown 12 99). unfold described_codes. intros Hin.
    repeat (apply elem_of_cons in Hin as [Hin|Hin]; [discriminate Hin|]).
    by apply elem_of_nil in Hin.
  - apply (Hknown 12 48). reflexivity.
  - rewrite (Hrpc 400 "PHONE_MIGRATE"). reflexivity.
  - rewrite (Hrpc' 400 "PHONE_MIGRATE"). reflexivity.
Defined.

(** [send] on a session that was never started. *)
Lemma send_ignores_connected_timeout_witness :
  ∃ s', send (ext:=demo) GetConfig MAX_RETRIES silent_waits
          (new_session 1 false None) =
        Some (Raise AttributeError, s', [WaitConnected WAIT_TIMEOUT false; Attempt]).
Proof.
  exact (proj2 (send_ignores_connected_timeout (ext:=demo) GetConfig MAX_RETRIES
                  [] [[]; []; []; []; []; []] (new_session 1 false None) eq_refl)
               eq_refl).
Defined.

(** C2: [restart] on a live session with a waiting caller, against what
    [stop] and then [start] awaited in turn do to it.  [restart] returns the
    session untouched: the slot is not fired, the disconnect handler is not
    called and no new transport is opened, whereas [stop] then [start] fire
    the slot, call the handler once and redo the handshake on a new
    transport.  The receive task that reads EOF on a connected session and
    spawns [restart] therefore only ends itself. *)
Theorem restart_awaits_nothing :
  restart (ext:=demo) [restart_pass] waiting_session = (Return tt, waiting_session) ∧
  ∃ s',
    stop_then_start (ext:=demo) [restart_pass] waiting_session = Some (Return tt, s') ∧
    event <$> results waiting_session !! 12 = Some false ∧
    event <$> results s' !! 12 = Some true ∧
    sent_bodies waiting_session = [] ∧
    sent_bodies s' = [Ping 0; GetFutureSalts 1; init_request (ext:=demo) waiting_session] ∧
    disconnect_calls <$> client waiting_session = Some 0%nat ∧
    disconnect_calls <$> client s' = Some 1%nat ∧
    is_connected s' = true ∧
    recv (ext:=demo) [None] [restart_pass] waiting_session =
      set_recv_task (Some TaskDone) waiting_session.
Proof.
  split; [reflexivity|].
  eexists. split; [vm_compute; reflexivity|].
  vm_compute. repeat split; reflexivity.
Qed.

End Runs.

(** * Further properties of the session *)

Section Frames.
Context {ext : Externals}.

Lemma control_frame_refl s : control_frame s s.
Proof. by repeat split. Qed.

Lemma control_frame_trans s1 s2 s3 :
  control_frame s1 s2 → control_frame s2 s3 → control_frame s1 s3.
Proof.
  intros (A1 & A2 & A3 & A4 & A5 & A6 & A7 & A8)
         (B1 & B2 & B3 & B4 & B5 & B6 & B7 & B8).
  repeat split; congruence.
Qed.

Lemma process_msg_control_frame s msg : control_frame s (process_msg s msg).
Proof.
  unfold control_frame, process_msg, dispatch_body, resolve, put_update.
  repeat case_match; done.
Qed.

Lemma dispatch_control_frame msgs s : control_frame s (dispatch msgs s).
Proof.
  revert s. induction msgs as [|m msgs IH]; intros s; [apply control_frame_refl|].
  eapply control_frame_trans; [apply (process_msg_control_frame s m)|apply IH].
Qed.

Lemma _send_begin_control_frame data w s :
  control_frame s (_send_begin data w s).2.
Proof.
  unfold control_frame, _send_begin.
  destruct (msg_factory (msg_count s) data) as [mid sq].
  destruct w; simpl; repeat case_match; done.
Qed.

Lemma flush_acks_control_frame s : control_frame s (flush_acks s).
Proof.
  unfold flush_acks, _send_nowait. case_bool_decide; [|apply control_frame_refl].
  pose proof (_send_begin_control_frame
                (MsgsAck (elements (pending_acks s))) false s) as Hf.
  destruct (_send_begin _ false s) as [[v|e] s']; exact Hf.
Qed.

Lemma handle_packet_control_frame packet s :
  control_frame s (handle_packet packet s).
Proof.
  unfold handle_packet.
  destruct (current_salt s) as [cs|]; [|apply control_frame_refl].
  destruct (unpack packet (salt cs)) as [data|]; [|apply control_frame_refl].
  eapply control_frame_trans;
    [apply dispatch_control_frame|apply flush_acks_control_frame].
Qed.

Lemma dispatch_worker_fields msgs s :
  net_worker_task (dispatch msgs s) = net_worker_task s ∧
  recv_queue (dispatch msgs s) = recv_queue s.
Proof.
  revert s. induction msgs as [|m msgs IH]; intros s; [done|].
  change (dispatch (m :: msgs) s) with (dispatch msgs (process_msg s m)).
  destruct (IH (process_msg s m)) as [-> ->].
  unfold process_msg, dispatch_body, resolve, put_update.
  repeat case_match; done.
Qed.

Lemma _send_begin_worker_fields data w s :
  net_worker_task (_send_begin data w s).2 = net_worker_task s ∧
  recv_queue (_send_begin data w s).2 = recv_queue s.
Proof.
  unfold _send_begin.
  destruct (msg_factory (msg_count s) data) as [mid sq].
  destruct w; simpl; repeat case_match; done.
Qed.

Lemma flush_acks_worker_fields s :
  net_worker_task (flush_acks s) = net_worker_task s ∧
  recv_queue (flush_acks s) = recv_queue s.
Proof.
  unfold flush_acks, _send_nowait. case_bool_decide; [|done].
  pose proof (_send_begin_worker_fields
                (MsgsAck (elements (pending_acks s))) false s) as Hf.
  destruct (_send_begin _ false s) as [[v|e] s']; exact Hf.
Qed.

Lemma handle_packet_worker_fields packet s :
  net_worker_task (handle_packet packet s) = net_worker_task s ∧
  recv_queue (handle_packet packet s) = recv_queue s.
Proof.
  unfold handle_packet.
  destruct (current_salt s) as [cs|]; [|done].
  destruct (unpack packet (salt cs)) as [data|]; [|done].
  destruct (flush_acks_worker_fields (dispatch (messages_of data) s)) as [-> ->].
  apply dispatch_worker_fields.
Qed.

Lemma net_worker_loop_control_frame queue s :
  control_frame s (net_worker_loop queue s).
Proof.
  revert s. induction queue as [|[packet|] queue IH]; intros s; simpl;
    [by repeat split|..|by repeat split].
  eapply control_frame_trans; [apply handle_packet_control_frame|apply IH].
Qed.

Lemma net_worker_control_frame s : control_frame s (net_worker s).
Proof.
  unfold net_worker. destruct (net_worker_task s) as [[]|];
    [apply net_worker_loop_control_frame|apply control_frame_refl..].
Qed.

Lemma await_slot_control_frame arrivals s : control_frame s (await_slot arrivals s).
Proof.
  unfold await_slot. destruct (recv_task s) as [[]|];
    try apply net_worker_control_frame.
  eapply control_frame_trans; [|apply net_worker_control_frame]. by repeat split.
Qed.

Lemma _send_control_frame data w arrivals s :
  control_frame s (_send data w arrivals s).2.
Proof.
  unfold _send.
  pose proof (_send_begin_control_frame data w s) as Hb.
  destruct (_send_begin data w s) as [[mid|e] s1]; [|exact Hb].
  destruct w; [|exact Hb]. cbn [snd] in Hb.
  eapply control_frame_trans; [exact Hb|].
  eapply control_frame_trans; [apply await_slot_control_frame|].
  unfold _send_end. destruct (results _ !! mid); by repeat split.
Qed.

End Frames.

Section TransportLog.
Context {ext : Externals}.

Lemma transport_extended_same s s' :
  connection s' = connection s → transport_extended s s' [].
Proof.
  intros Hc. unfold transport_extended. rewrite Hc.
  destruct (connection s); [|done]. by rewrite app_nil_r.
Qed.

Lemma transport_extended_trans s1 s2 s3 l1 l2 :
  transport_extended s1 s2 l1 → transport_extended s2 s3 l2 →
  transport_extended s1 s3 (l1 ++ l2).
Proof.
  unfold transport_extended.
  destruct (connection s1), (connection s2), (connection s3); try done.
  - intros (A1 & A2 & A3) (B1 & B2 & B3).
    repeat split; [congruence|congruence|].
    by rewrite B3, A3, app_assoc.
  - by intros -> ->.
Qed.

(** What [_send_begin] does to the transport: the payload is appended when
    the call goes through, nothing is when it raises. *)
Lemma _send_begin_transport data w s :
  match _send_begin data w s with
  | (Return mid, s') =>
      ∃ cs sq,
        current_salt s = Some cs ∧
        msg_factory (msg_count s) data = (mid, sq) ∧
        transport_extended s s'
          [{| p_message := {| out_msg_id := mid; out_seq_no := sq; out_body := data |};
              p_salt := salt cs |}]
  | (Raise _, s') => transport_extended s s' []
  end.
Proof.
  unfold _send_begin, transport_extended, conn_send.
  destruct (msg_factory (msg_count s) data) as [mid sq].
  destruct w; simpl;
    destruct (current_salt s) as [cs|]; simpl;
    destruct (connection s) as [c|] eqn:Hc; simpl; rewrite ?Hc; try done;
    try (by rewrite app_nil_r).
  all: destruct (send_raises c) as [|[e|] rest]; simpl;
    try (destruct (is_OSError e); simpl; by rewrite app_nil_r);
    by exists cs, sq.
Qed.

Lemma flush_acks_transport s :
  ∃ l, transport_extended s (flush_acks s) l ∧ Forall is_ack_payload l.
Proof.
  unfold flush_acks, _send_nowait. case_bool_decide as Hsize.
  2: { exists []. split; [by apply transport_extended_same|constructor]. }
  pose proof (_send_begin_transport
                (MsgsAck (elements (pending_acks s))) false s) as Hb.
  destruct (_send_begin _ false s) as [[mid|e] s1].
  - destruct Hb as (cs & sq & _ & _ & Hext). eexists. split.
    + unfold transport_extended in *. simpl.
      destruct (connection s), (connection s1); done.
    + repeat constructor. eexists. split; [reflexivity|exact Hsize].
  - exists []. split; [exact Hb|constructor].
Qed.

Lemma handle_packet_transport packet s :
  ∃ l, transport_extended s (handle_packet packet s) l ∧ Forall is_ack_payload l.
Proof.
  unfold handle_packet.
  destruct (current_salt s) as [cs|].
  2: { exists []. split; [by apply transport_extended_same|constructor]. }
  destruct (unpack packet (salt cs)) as [data|].
  2: { exists []. split; [by apply transport_extended_same|constructor]. }
  destruct (flush_acks_transport (dispatch (messages_of data) s)) as (l & Hext & Hl).
  exists l. split; [|exact Hl].
  change l with ([] ++ l). eapply transport_extended_trans; [|exact Hext].
  apply transport_extended_same, dispatch_connection.
Qed.

Lemma net_worker_loop_transport queue s :
  ∃ l, transport_extended s (net_worker_loop queue s) l ∧ Forall is_ack_payload l.
Proof.
  revert s. induction queue as [|[packet|] queue IH]; intros s; simpl.
  - exists []. split; [by apply transport_extended_same|constructor].
  - destruct (handle_packet_transport packet s) as (l1 & H1 & Hl1).
    destruct (IH (handle_packet packet s)) as (l2 & H2 & Hl2).
    exists (l1 ++ l2). split; [by eapply transport_extended_trans|].
    by apply Forall_app.
  - exists []. split; [by apply transport_extended_same|constructor].
Qed.

(** X1: whatever is in the inbound queue, all the worker ever hands to the
    transport are [MsgsAck] payloads, each listing at least
    [ACKS_THRESHOLD] ids; it neither opens nor closes the transport. *)
Theorem worker_sends_only_acks queue s :
  ∃ l,
    transport_extended s (net_worker_loop queue s) l ∧
    Forall (fun p => ∃ ids, out_body (p_message p) = MsgsAck ids ∧
                            (ACKS_THRESHOLD ≤ length ids)%nat) l.
Proof. apply net_worker_loop_transport. Qed.




End TransportLog.

Section WorkerQueue.
Context {ext : Externals}.

Lemma net_worker_loop_packets ps queue s :
  net_worker_loop ((Some <$> ps) ++ queue) s =
  net_worker_loop queue (handle_all ps s).
Proof.
  revert s. induction ps as [|p ps IH]; intros s; simpl; [done|]. apply IH.
Qed.

(** X2: the worker takes the queued packets in order; at the sentinel it
    ends, and whatever was queued behind the sentinel stays in the queue
    without being handled. *)
Theorem worker_stops_at_sentinel ps behind s :
  net_worker_loop ((Some <$> ps) ++ None :: behind) s =
  set_net_worker_task (Some TaskDone) (set_recv_queue behind (handle_all ps s)).
Proof. by rewrite net_worker_loop_packets. Qed.

Lemma dispatch_acked msgs s m :
  m ∈ msgs → needs_ack m = true → msg_id m ∈ pending_acks (dispatch msgs s).
Proof.
  intros Hm Hodd. apply list_elem_of_split in Hm as (l1 & l2 & ->).
  unfold dispatch. rewrite fold_left_app. simpl.
  apply (dispatch_pending_acks_mono l2). by apply process_msg_acked.
Qed.

(** The three ways [flush_acks] can end. *)
Lemma flush_acks_outcome s :
  (flush_acks s = s ∧ (size (pending_acks s) < ACKS_THRESHOLD)%nat) ∨
  (pending_acks (flush_acks s) = pending_acks s ∧
   transport_extended s (flush_acks s) [] ∧
   match connection s with
   | Some c => ¬ next_send_ok c ∨ current_salt s = None
   | None => True
   end) ∨
  (pending_acks (flush_acks s) = ∅ ∧
   ∃ cs mid sq,
     current_salt s = Some cs ∧
     transport_extended s (flush_acks s)
       [{| p_message :=
             {| out_msg_id := mid; out_seq_no := sq;
                out_body := MsgsAck (elements (pending_acks s)) |};
           p_salt := salt cs |}]).
Proof.
  unfold flush_acks, _send_nowait. case_bool_decide as Hsize.
  2: { left. split; [done|lia]. }
  right.
  pose proof (_send_begin_transport
                (MsgsAck (elements (pending_acks s))) false s) as Hb.
  assert (pending_acks (_send_begin (MsgsAck (elements (pending_acks s))) false s).2
          = pending_acks s) as Hp.
  { unfold _send_begin. destruct (msg_factory _ _) as [mid sq]. simpl.
    repeat case_match; done. }
  assert (∀ e s1, _send_begin (MsgsAck (elements (pending_acks s))) false s
                  = (Raise e, s1) →
                  match connection s with
                  | Some c => ¬ next_send_ok c ∨ current_salt s = None
                  | None => True
                  end) as Hwhy.
  { intros e s1. unfold _send_begin, conn_send, next_send_ok.
    destruct (msg_factory _ _) as [mid sq]. simpl.
    destruct (connection s) as [c|]; [|done].
    destruct (current_salt s); [|by right].
    destruct (send_raises c) as [|[e'|] rest]; simpl; try done.
    intros _. left. by intros []. }
  destruct (_send_begin _ false s) as [[mid|e] s1]; cbn [snd] in Hp.
  - right. split; [done|]. destruct Hb as (cs & sq & Hcs & _ & Hext).
    exists cs, mid, sq. split; [done|].
    unfold transport_extended in *. simpl. exact Hext.
  - left. split; [exact Hp|]. split; [exact Hb|]. by eapply Hwhy.
Qed.

(** X3: no acknowledgement is lost: once a packet has been handled, the
    msg_id of each of its content messages is either in [pending_acks] or in
    the [MsgsAck] that was just handed to the transport. *)
Theorem content_message_acked_or_pending packet s cs data m :
  current_salt s = Some cs →
  unpack packet (salt cs) = Some data →
  m ∈ messages_of data →
  needs_ack m = true →
  msg_id m ∈ pending_acks (handle_packet packet s) ∨
  ∃ p ids,
    transport_extended s (handle_packet packet s) [p] ∧
    out_body (p_message p) = MsgsAck ids ∧
    msg_id m ∈ ids.
Proof.
  intros Hsalt Hunpack Hm Hodd. unfold handle_packet. rewrite Hsalt, Hunpack.
  pose proof (dispatch_acked (messages_of data) s m Hm Hodd) as Hin.
  pose proof (dispatch_connection (messages_of data) s) as Hconn.
  destruct (flush_acks_outcome (dispatch (messages_of data) s))
    as [[-> _] | [(Hp & _) | (_ & cs' & mid & sq & _ & Hext)]].
  - by left.
  - left. by rewrite Hp.
  - right. eexists _, _. split; [|split].
    + unfold transport_extended in *. rewrite Hconn in Hext. exact Hext.
    + reflexivity.
    + by apply elem_of_elements.
Qed.


Lemma slots_advance_refl s s' : results s' = results s → slots_advance s s'.
Proof. intros Heq i r Hr. exists r. by rewrite Heq. Qed.

Lemma slots_advance_trans s1 s2 s3 :
  slots_advance s1 s2 → slots_advance s2 s3 → slots_advance s1 s3.
Proof.
  intros H1 H2 i r Hr. destruct (H1 i r Hr) as (r' & Hr' & He).
  destruct (H2 i r' Hr') as (r'' & Hr'' & He'). exists r''. split; [done|]. auto.
Qed.

Lemma process_msg_slots_advance s msg : slots_advance s (process_msg s msg).
Proof.
  destruct (process_msg_results s msg) as [Heq | (i & b & _ & Heq)].
  - by apply slots_advance_refl.
  - intros j r Hr. rewrite Heq. destruct (decide (i = j)) as [->|Hne].
    + rewrite lookup_insert_eq. by eexists.
    + rewrite lookup_insert_ne by done. by exists r.
Qed.

Lemma dispatch_slots_advance msgs s : slots_advance s (dispatch msgs s).
Proof.
  revert s. induction msgs as [|m msgs IH]; intros s;
    [by apply slots_advance_refl|].
  eapply slots_advance_trans; [apply (process_msg_slots_advance s m)|apply IH].
Qed.

Lemma dispatch_fresh_ids msgs s : fresh_ids s → fresh_ids (dispatch msgs s).
Proof.
  revert s. induction msgs as [|m msgs IH]; intros s Hfresh; [done|].
  apply IH. intros n data Hn. rewrite process_msg_msg_count in Hn.
  destruct (process_msg_results s m) as [-> | (i & b & Hi & ->)];
    [by apply Hfresh|].
  destruct (decide (i = (msg_factory n data).1)) as [->|Hne].
  - rewrite (Hfresh n data Hn) in Hi. by destruct Hi.
  - rewrite lookup_insert_ne by done. by apply Hfresh.
Qed.

Lemma flush_acks_results s : fresh_ids s →
  results (flush_acks s) = results s ∧ fresh_ids (flush_acks s).
Proof.
  intros Hfresh. unfold flush_acks. case_bool_decide; [|done].
  assert (results (_send_nowait (MsgsAck (elements (pending_acks s))) s).2
          = results s ∧
          (msg_count s ≤ msg_count
             (_send_nowait (MsgsAck (elements (pending_acks s))) s).2)%nat)
    as [Hres Hcount].
  { unfold _send_nowait, _send_begin.
    pose proof (Hfresh (msg_count s) (MsgsAck (elements (pending_acks s)))
                  ltac:(lia)) as Hnone.
    destruct (msg_factory _ _) as [mid sq]. simpl in *.
    repeat case_match; simplify_eq; simpl; split; try done; try lia.
    by apply delete_id. }
  destruct (_send_nowait _ s) as [[v|e] s1]; cbn [snd] in *.
  - split; [done|]. intros n data Hn. simpl in *. rewrite Hres.
    apply Hfresh. lia.
  - split; [done|]. intros n data Hn. rewrite Hres. apply Hfresh. lia.
Qed.

Lemma handle_packet_slots_advance packet s :
  fresh_ids s →
  slots_advance s (handle_packet packet s) ∧ fresh_ids (handle_packet packet s).
Proof.
  intros Hfresh. unfold handle_packet.
  destruct (current_salt s) as [cs|]; [|split; [by apply slots_advance_refl|done]].
  destruct (unpack packet (salt cs)) as [data|];
    [|split; [by apply slots_advance_refl|done]].
  pose proof (dispatch_fresh_ids (messages_of data) s Hfresh) as Hf1.
  destruct (flush_acks_results _ Hf1) as [Hres Hf2].
  split; [|done].
  eapply slots_advance_trans; [apply dispatch_slots_advance|].
  by apply slots_advance_refl.
Qed.

(** X5: the worker never removes a result slot and never takes back a
    signal: every slot present before it runs is present after, and fired if
    it was fired (its value may have been overwritten by a later reply). *)
Theorem worker_keeps_and_fires_slots queue s :
  fresh_ids s →
  slots_advance s (net_worker_loop queue s).
Proof.
  revert s. induction queue as [|[packet|] queue IH]; intros s Hfresh; simpl;
    [by apply slots_advance_refl|..|by apply slots_advance_refl].
  destruct (handle_packet_slots_advance packet s Hfresh) as [Hadv Hf].
  eapply slots_advance_trans; [exact Hadv|by apply IH].
Qed.

End WorkerQueue.

Section SendMore.
Context {ext : Externals}.

(** X6: whenever [_send] gets as far as the transport (a salt and a
    transport are there) and the transport either accepts the payload or
    raises an OSError, the slot [_send] allocated for the request is gone
    when [_send] ends, whether it returns or raises. *)
Theorem _send_leaves_no_slot data arrivals s cs c :
  current_salt s = Some cs →
  connection s = Some c →
  (∀ e rest, send_raises c = Some e :: rest → is_OSError e = true) →
  results (_send data true arrivals s).2 !! (msg_factory (msg_count s) data).1 = None.
Proof.
  intros Hsalt Hconn Hos. unfold _send, _send_begin.
  destruct (msg_factory (msg_count s) data) as [mid sq].
  cbn [fst]. simpl. rewrite Hsalt, Hconn. unfold conn_send.
  destruct (send_raises c) as [|[e|] rest] eqn:Hscript; simpl.
  - unfold _send_end.
    destruct (results (await_slot arrivals _) !! mid) as [r|] eqn:Hr; simpl;
      [apply lookup_delete_eq|exact Hr].
  - rewrite (Hos e rest eq_refl). simpl. apply lookup_delete_eq.
  - unfold _send_end.
    destruct (results (await_slot arrivals _) !! mid) as [r|] eqn:Hr; simpl;
      [apply lookup_delete_eq|exact Hr].
Qed.

(** X7: on a session that has no salt yet (it was never started), [_send]
    raises AttributeError only after it has taken a msg_id and allocated the
    slot, and the unresolved slot stays in [results]. *)
Theorem _send_without_salt_leaks_slot data arrivals s :
  current_salt s = None →
  (_send data true arrivals s).1 = Raise AttributeError ∧
  results (_send data true arrivals s).2 !! (msg_factory (msg_count s) data).1 =
    Some {| value := None; event := false |} ∧
  msg_count (_send data true arrivals s).2 = S (msg_count s).
Proof.
  intros Hsalt. unfold _send, _send_begin.
  destruct (msg_factory (msg_count s) data) as [mid sq].
  cbn [fst]. simpl. rewrite Hsalt. simpl.
  split; [done|]. split; [apply lookup_insert_eq|done].
Qed.

(** X8: with a negative [retries] the test [retries == 0] never holds, so
    [send] never hands a retryable error to its caller: it can only end
    with a result or with an error it does not retry. *)
Theorem send_negative_retries_never_gives_up data waits :
  ∀ retries s e s' t,
    retries < 0 →
    send data retries waits s = Some (Raise e, s', t) →
    retryable e = false.
Proof.
  induction waits as [|arrivals waits IH]; intros retries s e s' t Hneg; [done|].
  rewrite send_unfold.
  destruct (_send data true arrivals s) as [[v|e1] s1]; [done|].
  destruct (retryable e1) eqn:Hre; simpl.
  - assert ((retries =? 0) = false) as -> by lia. simpl.
    destruct (send data (retries - 1) waits s1) as [[[r1 s2] t1]|] eqn:Hrec; [|done].
    simpl. intros [= -> <- <-]. eapply (IH (retries - 1)); [lia|exact Hrec].
  - by intros [= <- <- <-].
Qed.

Lemma attempts_retry_trace k b : attempts (retry_trace k b) = S k.
Proof.
  induction k as [|k IH]; [done|]. unfold attempts in *. simpl. by rewrite IH.
Qed.

(** X9: the trace of a [send] that ends is [k] rounds of wait, attempt and
    half-second sleep followed by a last wait and attempt: every attempt is
    preceded by the wait on [is_connected], every failed attempt but the
    last is followed by exactly one sleep, and no more than [retries]
    rounds are made when [retries] is not negative. *)
Theorem send_trace_shape data waits :
  ∀ retries s r s' t,
    send data retries waits s = Some (r, s', t) →
    ∃ k, t = retry_trace k (is_connected s) ∧
         attempts t = S k ∧
         (0 ≤ retries → Z.of_nat k ≤ retries).
Proof.
  induction waits as [|arrivals waits IH]; intros retries s r s' t; [done|].
  rewrite send_unfold.
  pose proof (_send_control_frame data true arrivals s) as (Hconn & _).
  destruct (_send data true arrivals s) as [[v|e] s1]; cbn [snd] in Hconn.
  { intros [= <- <- <-]. exists 0%nat. repeat split. lia. }
  destruct (retryable e && negb (retries =? 0)) eqn:Hgo.
  2: { intros [= <- <- <-]. exists 0%nat. repeat split. lia. }
  destruct (send data (retries - 1) waits s1) as [[[r1 s2] t1]|] eqn:Hrec; [|done].
  simpl. intros [= <- <- <-].
  destruct (IH _ _ _ _ _ Hrec) as (k & -> & _ & Hk).
  exists (S k). rewrite Hconn. split; [done|]. split.
  - apply (attempts_retry_trace (S k)).
  - intros Hpos. apply andb_true_iff in Hgo as [_ Hnz].
    apply negb_true_iff, Z.eqb_neq in Hnz. lia.
Qed.

Lemma send_frames data waits :
  ∀ retries s r s' t,
    send data retries waits s = Some (r, s', t) →
    salt_frame s s' ∧ control_frame s s'.
Proof.
  induction waits as [|arrivals waits IH]; intros retries s r s' t; [done|].
  rewrite send_unfold.
  pose proof (_send_control_frame data true arrivals s) as Hc.
  pose proof (_send_salt_frame data true arrivals s) as Hs.
  destruct (_send data true arrivals s) as [[v|e] s1]; cbn [snd] in Hc, Hs.
  { by intros [= <- <- <-]. }
  destruct (retryable e && negb (retries =? 0)).
  2: { by intros [= <- <- <-]. }
  destruct (send data (retries - 1) waits s1) as [[[r1 s2] t1]|] eqn:Hrec; [|done].
  simpl. intros [= <- <- <-].
  destruct (IH _ _ _ _ _ Hrec) as [Hs' Hc']. split.
  - by eapply salt_frame_trans.
  - by eapply control_frame_trans.
Qed.

(** X10: however it ends and however often it retries, [send] assigns
    nothing to [current_salt] and leaves [is_connected], the task handles
    and their events as they were. *)
Theorem send_keeps_salt_and_lifecycle data retries waits s r s' t :
  send data retries waits s = Some (r, s', t) →
  current_salt s' = current_salt s ∧
  salt_writes s' = salt_writes s ∧
  is_connected s' = is_connected s ∧
  ping_task s' = ping_task s ∧
  next_salt_task s' = next_salt_task s ∧
  recv_task s' = recv_task s.
Proof.
  intros Hsend.
  destruct (send_frames _ _ _ _ _ _ _ Hsend)
    as [[H1 H2] (H3 & H4 & H5 & H6 & _)].
  by repeat split.
Qed.

End SendMore.

Section StopMore.
Context {ext : Externals}.

Lemma stop_teardown_started s c t w :
  connection s = Some c → recv_task s = Some t → net_worker_task s = Some w →
  stop_teardown s = (Return tt, net_worker (closing c s)).
Proof.
  destruct s. simpl. intros -> -> ->. reflexivity.
Qed.

Lemma stop_teardown_not_started s :
  connection s = None ∨ recv_task s = None ∨ net_worker_task s = None →
  ∃ e s',
    stop_teardown s = (Raise e, s') ∧
    (e = AttributeError ∨ e = TypeError) ∧
    results s' = results s ∧ client s' = client s ∧ is_connected s' = false.
Proof.
  destruct s as [a b cl conn mc cs sw pa rq rs pt pe nt ne wt rt ic]. simpl.
  intros Hmissing. unfold stop_teardown. simpl.
  destruct conn as [c|]; simpl.
  2: { eexists _, _. split; [reflexivity|]. split; [by left|]. done. }
  destruct rt as [t|]; simpl.
  2: { eexists _, _. split; [reflexivity|]. split; [by right|]. done. }
  destruct wt as [w|]; simpl.
  2: { eexists _, _. split; [reflexivity|]. split; [by right|]. done. }
  by destruct Hmissing as [?|[?|?]].
Qed.

Lemma stop_outcome_cases s :
  ((stop s).1 = Return tt ↔
   is_Some (connection s) ∧ is_Some (recv_task s) ∧ is_Some (net_worker_task s)) ∧
  ((stop s).1 ≠ Return tt →
   ((stop s).1 = Raise AttributeError ∨ (stop s).1 = Raise TypeError) ∧
   results (stop s).2 = results s ∧
   client (stop s).2 = client s ∧
   is_connected (stop s).2 = false).
Proof.
  rewrite stop_unfold.
  destruct (connection s) as [c|] eqn:Hc.
  2: { destruct (stop_teardown_not_started s) as (e & s' & -> & He & Hr & Hcl & Hi);
         [by left|].
       split; [split; [done|by intros [[? [=]] _]]|].
       intros _. cbn [fst snd]. destruct He as [-> | ->]; repeat split; auto. }
  destruct (recv_task s) as [t|] eqn:Ht.
  2: { destruct (stop_teardown_not_started s) as (e & s' & -> & He & Hr & Hcl & Hi);
         [by right; left|].
       split; [split; [done|by intros (_ & [? [=]] & _)]|].
       intros _. cbn [fst snd]. destruct He as [-> | ->]; repeat split; auto. }
  destruct (net_worker_task s) as [w|] eqn:Hw.
  2: { destruct (stop_teardown_not_started s) as (e & s' & -> & He & Hr & Hcl & Hi);
         [by right; right|].
       split; [split; [done|by intros (_ & _ & [? [=]])]|].
       intros _. cbn [fst snd]. destruct He as [-> | ->]; repeat split; auto. }
  rewrite (stop_teardown_started s c t w Hc Ht Hw). cbn [fst].
  split; [|done]. split; [|done]. intros _. repeat split; by eexists.
Qed.

(** X11: on a session whose keepalive and salt tasks were never spawned,
    [stop] raises [AttributeError] when there is no transport and
    [TypeError] when there is one but the receive task or the worker task
    was never spawned; in both cases it has cleared [is_connected], fired no
    result slot and not called the disconnect handler. *)
Theorem stop_needs_started_session s :
  ping_task s = None →
  next_salt_task s = None →
  connection s = None ∨ recv_task s = None ∨ net_worker_task s = None →
  (stop s).1 =
    Raise match connection s with
          | None => AttributeError
          | Some _ => TypeError
          end ∧
  results (stop s).2 = results s ∧
  client (stop s).2 = client s ∧
  is_connected (stop s).2 = false.
Proof.
  destruct s as [a b cl conn mc cs sw pa rq rs pt pe nt ne wt rt ic]. simpl.
  intros -> -> Hmissing. unfold stop, stop_teardown. simpl.
  destruct conn as [c|]; simpl; [|done].
  destruct rt as [t|]; simpl; [|done].
  destruct wt as [w|]; simpl; [|done].
  by destruct Hmissing as [?|[?|?]].
Qed.


Lemma call_disconnect_handler_control_frame s :
  control_frame s (call_disconnect_handler s).
Proof.
  unfold call_disconnect_handler. repeat case_match; by repeat split.
Qed.

Lemma call_disconnect_handler_fields s :
  connection (call_disconnect_handler s) = connection s ∧
  net_worker_task (call_disconnect_handler s) = net_worker_task s ∧
  recv_queue (call_disconnect_handler s) = recv_queue s.
Proof.
  unfold call_disconnect_handler. repeat case_match; by repeat split.
Qed.

Lemma closing_fields c s :
  is_connected (closing c s) = false ∧
  ping_task_event (closing c s) = false ∧
  next_salt_task_event (closing c s) = false ∧
  ping_task (closing c s) = finish (ping_task s) ∧
  next_salt_task (closing c s) = finish (next_salt_task s) ∧
  recv_task (closing c s) = Some TaskDone ∧
  net_worker_task (closing c s) = net_worker_task s ∧
  connection (closing c s) = Some (conn_close c) ∧
  recv_queue (closing c s) = recv_queue s ++ [None] ∧
  results (closing c s) = results s ∧
  msg_count (closing c s) = msg_count s.
Proof. destruct s. by repeat split. Qed.

Lemma release_results_fields s :
  control_frame s (release_results s) ∧
  connection (release_results s) = connection s ∧
  net_worker_task (release_results s) = net_worker_task s ∧
  recv_queue (release_results s) = recv_queue s ∧
  results (release_results s) = fire <$> results s.
Proof. destruct s. by repeat split. Qed.




Lemma stop_clears_is_connected s : is_connected (stop s).2 = false.
Proof.
  destruct (stop_outcome_cases s) as [[Hstarted _] Hfailed].
  destruct ((stop s).1) as [[]|e] eqn:Hout.
  - destruct Hstarted as ([c Hc] & [t Ht] & [w Hw]); [done|].
    rewrite stop_unfold, (stop_teardown_started s c t w Hc Ht Hw). cbn [snd].
    destruct (call_disconnect_handler_control_frame
                (release_results (net_worker (closing c s)))) as (-> & _).
    destruct (release_results_fields (net_worker (closing c s))) as ((-> & _) & _).
    destruct (net_worker_control_frame (closing c s)) as (-> & _).
    by destruct (closing_fields c s) as (-> & _).
  - by destruct Hfailed as (_ & _ & _ & ->).
Qed.

End StopMore.

Section StartMore.
Context {ext : Externals}.

Lemma _send_starved data arrivals s cs c :
  current_salt s = Some cs →
  connection s = Some c →
  next_send_ok c →
  (net_worker_task s ≠ Some TaskRunning ∨ ∃ q, recv_queue s = None :: q) →
  (_send data true arrivals s).1 = Raise TimeoutError.
Proof.
  destruct s as [a b cl conn mc salt0 sw pa rq rs pt pe nt ne wt rt ic]. simpl.
  intros -> -> Hok Hworker. unfold _send, _send_begin. simpl.
  destruct (msg_factory mc data) as [mid sq]. simpl.
  unfold conn_send, next_send_ok in *.
  destruct (send_raises c) as [|[e|] rest]; [|done|]; simpl.
  all: unfold await_slot, net_worker; simpl.
  all: destruct Hworker as [Hw | [q ->]].
  all: destruct rt as [[]|]; simpl; destruct wt as [[]|]; simpl; try done.
  all: unfold _send_end; simpl; by rewrite lookup_insert_eq.
Qed.

(** X13: a request can only be answered by a worker that is running and has
    not met the sentinel: when the worker task is not running, or [None]
    heads the inbound queue, a [_send] that reaches the transport raises
    [TimeoutError] whatever packets arrive while it waits. *)
Theorem _send_times_out_without_worker data arrivals s cs c :
  current_salt s = Some cs →
  connection s = Some c →
  next_send_ok c →
  (net_worker_task s ≠ Some TaskRunning ∨ ∃ q, recv_queue s = None :: q) →
  (_send data true arrivals s).1 = Raise TimeoutError.
Proof. apply _send_starved. Qed.

Lemma start_unfold p rest s :
  start (p :: rest) s =
  match start_body p (set_connection (Some (pass_connection p)) s) with
  | (Return _, s1) => Some (Return tt, set_is_connected true s1)
  | (Raise e, s1) =>
      match stop s1 with
      | (Raise e', s2) => Some (Raise e', s2)
      | (Return _, s2) =>
          if is_OSError e || is_TimeoutError e || is_Error e
          then start rest s2
          else Some (Raise e, s2)
      end
  end.
Proof. reflexivity. Qed.

Lemma start_body_starved p s c :
  connection s = Some c →
  connect_raises c = None →
  next_send_ok c →
  (∃ q, recv_queue s = None :: q) →
  (start_body p s).1 = Raise TimeoutError.
Proof.
  intros Hc Hcr Hok Hq. unfold start_body. rewrite Hc, Hcr. cbv zeta.
  pose proof (_send_starved (Ping 0) (pass_ping p)
                (set_current_salt (bare_salt INITIAL_SALT)
                   (set_recv_task (Some TaskRunning)
                      (set_net_worker_task (Some TaskRunning) s)))
                (bare_salt INITIAL_SALT) c eq_refl Hc Hok (or_intror Hq)) as Hout.
  destruct (_send (Ping 0) true (pass_ping p) _) as [[r|e] sB]; cbn [fst] in *.
  - discriminate Hout.
  - injection Hout as ->. reflexivity.
Qed.

Lemma stop_with_ended_worker s s' :
  net_worker_task s = Some TaskDone →
  stop s = (Return tt, s') →
  recv_queue s' = recv_queue s ++ [None].
Proof.
  intros Hw Hstop.
  destruct (stop_outcome_cases s) as [[Hstarted _] _].
  destruct Hstarted as ([c Hc] & [t Ht] & _); [by rewrite Hstop|].
  rewrite stop_unfold, (stop_teardown_started s c t _ Hc Ht Hw) in Hstop.
  injection Hstop as <-.
  destruct (call_disconnect_handler_fields
              (release_results (net_worker (closing c s)))) as (_ & _ & ->).
  destruct (release_results_fields (net_worker (closing c s)))
    as (_ & _ & _ & -> & _).
  destruct (closing_fields c s) as (_ & _ & _ & _ & _ & _ & C7 & _ & C9 & _).
  unfold net_worker. rewrite C7, Hw. exact C9.
Qed.

(** X14: [stop] on a session whose worker has already ended (a second
    [stop], for one) leaves its sentinel in the inbound queue; with the
    queue otherwise empty, the worker that the next [start] spawns ends on
    that sentinel at once, and the pass fails with [TimeoutError] at the
    ping whatever the server answers. *)
Theorem stale_sentinel_fails_next_pass s s' p :
  net_worker_task s = Some TaskDone →
  recv_queue s = [] →
  stop s = (Return tt, s') →
  connect_raises (pass_connection p) = None →
  next_send_ok (pass_connection p) →
  recv_queue s' = [None] ∧
  (start_body p (set_connection (Some (pass_connection p)) s')).1 =
    Raise TimeoutError.
Proof.
  intros Hw Hq Hstop Hcr Hok.
  pose proof (stop_with_ended_worker s s' Hw Hstop) as Hqueue.
  rewrite Hq in Hqueue. split; [exact Hqueue|].
  apply (start_body_starved p _ (pass_connection p)); [reflexivity|done|done|].
  exists []. exact Hqueue.
Qed.

Lemma stop_without_recv_task s c :
  connection s = Some c → recv_task s = None →
  (stop s).1 = Raise TypeError.
Proof.
  intros Hc Ht. rewrite stop_unfold.
  assert (∃ s', stop_teardown s = (Raise TypeError, s')) as [s' ->]; [|done].
  destruct s. simpl in *. subst. unfold stop_teardown. simpl. by eexists.
Qed.

Lemma start_body_connect_fails p s c e :
  connection s = Some c → connect_raises c = Some e →
  start_body p s = (Raise e, s).
Proof. intros Hc Hcr. unfold start_body. by rewrite Hc, Hcr. Qed.

(** X15: when [connect()] raises on a session whose tasks were never
    spawned (the first pass of the first [start]), the loop does not go
    round: [stop] awaits the receive task that does not exist, and [start]
    ends with that [TypeError], [is_connected] unset, whatever the error of
    [connect()] was. *)
Theorem start_first_connect_failure_not_retried p rest s e :
  recv_task s = None →
  connect_raises (pass_connection p) = Some e →
  ∃ s', start (p :: rest) s = Some (Raise TypeError, s') ∧
        is_connected s' = false.
Proof.
  intros Ht Hcr. rewrite start_unfold.
  rewrite (start_body_connect_fails p
             (set_connection (Some (pass_connection p)) s)
             (pass_connection p) e eq_refl Hcr).
  pose proof (stop_without_recv_task
                (set_connection (Some (pass_connection p)) s)
                (pass_connection p) eq_refl Ht) as Hout.
  pose proof (stop_clears_is_connected
                (set_connection (Some (pass_connection p)) s)) as Hic.
  destruct (stop (set_connection (Some (pass_connection p)) s)) as [[[]|e'] s2];
    cbn [fst snd] in *; [discriminate Hout|].
  injection Hout as ->. by exists s2.
Qed.

End StartMore.

Section ReceiveTask.
Context {ext : Externals}.

Lemma recv_eq incoming script : ∀ s,
  recv incoming script s =
  if existsb is_eof incoming
  then set_recv_task (Some TaskDone)
         (set_recv_queue (recv_queue s ++ received incoming) s)
  else set_recv_queue (recv_queue s ++ received incoming) s.
Proof.
  induction incoming as [|[packet|] rest IH]; intros s.
  - destruct s. simpl. by rewrite app_nil_r.
  - cbn [recv existsb received is_eof].
    destruct (length packet =? 4)%nat.
    + destruct s as [a b cl conn mc cs sw pa rq rs pt pe nt ne wt rt ic].
      simpl. rewrite app_nil_r. by destruct ic.
    + rewrite IH. destruct s. simpl. rewrite <- app_assoc. simpl.
      by destruct (existsb is_eof rest).
  - destruct s as [a b cl conn mc cs sw pa rq rs pt pe nt ne wt rt ic].
    simpl. rewrite app_nil_r. by destruct ic.
Qed.

(** X16: the receive task queues, in the order read, exactly the packets the
    transport delivers before the first end of stream ([None] or a 4-byte
    error code) and nothing read after it; on the end of stream it ends, and
    since the [restart] it spawns runs nothing, the rest of the session,
    [is_connected] included, is left as it was. *)
Theorem recv_enqueues_until_eof incoming script s :
  recv incoming script s =
  if existsb is_eof incoming
  then set_recv_task (Some TaskDone)
         (set_recv_queue (recv_queue s ++ received incoming) s)
  else set_recv_queue (recv_queue s ++ received incoming) s.
Proof. apply recv_eq. Qed.

End ReceiveTask.

Section SaltTask.
Context {ext : Externals}.

(** *** The salt through the steps of the salt task *)

Lemma salt_advance_frame s s' : salt_frame s s' → salt_advance s s' [].
Proof. intros [Hc Hw]. split; [by rewrite app_nil_r|exact Hc]. Qed.

Lemma salt_advance_trans s1 s2 s3 l1 l2 :
  salt_advance s1 s2 l1 → salt_advance s2 s3 l2 → salt_advance s1 s3 (l1 ++ l2).
Proof.
  intros [Hw1 Hc1] [Hw2 Hc2]. split.
  - by rewrite Hw2, Hw1, app_assoc.
  - rewrite Hc2, last_app. destruct (last l2); [done|exact Hc1].
Qed.

Lemma salt_advance_pre s1 s2 s3 l :
  salt_frame s1 s2 → salt_advance s2 s3 l → salt_advance s1 s3 l.
Proof.
  intros Hf Ha. change l with ([] ++ l).
  eapply salt_advance_trans; [by apply salt_advance_frame|exact Ha].
Qed.

Lemma salt_advance_post s1 s2 s3 l :
  salt_advance s1 s2 l → salt_frame s2 s3 → salt_advance s1 s3 l.
Proof.
  intros Ha Hf. rewrite <- (app_nil_r l).
  eapply salt_advance_trans; [exact Ha|by apply salt_advance_frame].
Qed.

Lemma set_current_salt_advance v s : salt_advance s (set_current_salt v s) [v].
Proof. by destruct s. Qed.

Lemma _send_end_salt_frame data mid s : salt_frame s (_send_end data mid s).2.
Proof. unfold _send_end. destruct (results s !! mid); by split. Qed.

Lemma set_next_salt_task_salt_frame t s : salt_frame s (set_next_salt_task t s).
Proof. by destruct s. Qed.

Lemma close_salt_frame s :
  salt_frame s (set_connection (conn_close <$> connection s) s).
Proof. by destruct s. Qed.

Lemma next_salt_failed_salt_frame e s : salt_frame s (next_salt_failed e s).
Proof.
  unfold next_salt_failed.
  destruct (is_OSError e || is_TimeoutError e || is_Error e).
  - eapply salt_frame_trans;
      [apply close_salt_frame|apply set_next_salt_task_salt_frame].
  - apply set_next_salt_task_salt_frame.
Qed.

Lemma next_salt_request_salt_frame s : salt_frame s (next_salt_request s).1.
Proof.
  unfold next_salt_request.
  destruct (next_salt_task s) as [[]|]; try apply salt_frame_refl.
  destruct (next_salt_task_event s); [apply set_next_salt_task_salt_frame|].
  destruct (current_salt s) eqn:Hcs; [|apply set_next_salt_task_salt_frame].
  pose proof (_send_begin_salt_frame (GetFutureSalts 1) true s) as Hb.
  destruct (_send_begin (GetFutureSalts 1) true s) as [[mid|e] s1];
    cbn [fst snd] in *; [exact Hb|].
  eapply salt_frame_trans; [exact Hb|apply next_salt_failed_salt_frame].
Qed.

Lemma next_salt_reply_salt_advance mid s :
  ∃ later,
    salt_advance s (next_salt_reply mid s) later ∧ (length later ≤ 1)%nat.
Proof.
  unfold next_salt_reply.
  pose proof (_send_end_salt_frame (GetFutureSalts 1) mid s) as Hf.
  destruct (_send_end (GetFutureSalts 1) mid s) as [[v|e] s1]; cbn [snd] in Hf.
  - destruct v as [[| | | | | |i [|fs others]| | | |]|];
      try (exists []; split; [|simpl; lia];
           apply salt_advance_frame;
           eapply salt_frame_trans; [exact Hf|apply set_next_salt_task_salt_frame]).
    exists [fs]. split; [|simpl; lia].
    eapply salt_advance_pre; [exact Hf|apply set_current_salt_advance].
  - exists []. split; [|simpl; lia]. apply salt_advance_frame.
    eapply salt_frame_trans; [exact Hf|apply next_salt_failed_salt_frame].
Qed.

Lemma meanwhile_salt_advance l :
  ∀ s pending, ∃ later,
    salt_advance s (fold_left meanwhile_step l (s, pending)).1 later ∧
    (length later ≤ salt_wakes l)%nat.
Proof.
  induction l as [|m l IH]; intros s pending.
  { exists []. split; [apply salt_advance_frame, salt_frame_refl|simpl; lia]. }
  change (fold_left meanwhile_step (m :: l) (s, pending))
    with (fold_left meanwhile_step l (meanwhile_step (s, pending) m)).
  destruct m as [packets| |], pending as [mid|]; cbn [meanwhile_step salt_wakes].
  - destruct (IH (await_slot packets s) (Some mid)) as (l2 & H2 & Hl2).
    exists l2. split; [|exact Hl2].
    eapply salt_advance_pre; [apply await_slot_salt_frame|exact H2].
  - destruct (IH (await_slot packets s) None) as (l2 & H2 & Hl2).
    exists l2. split; [|exact Hl2].
    eapply salt_advance_pre; [apply await_slot_salt_frame|exact H2].
  - apply IH.
  - pose proof (next_salt_request_salt_frame s) as Hf.
    destruct (next_salt_request s) as [s1 pending1]. cbn [fst] in Hf.
    destruct (IH s1 pending1) as (l2 & H2 & Hl2).
    exists l2. split; [|exact Hl2]. by eapply salt_advance_pre.
  - destruct (next_salt_reply_salt_advance mid s) as (l1 & H1 & Hl1).
    destruct (IH (next_salt_reply mid s) None) as (l2 & H2 & Hl2).
    exists (l1 ++ l2). split; [by eapply salt_advance_trans|].
    rewrite length_app. lia.
  - destruct (IH s None) as (l2 & H2 & Hl2).
    exists l2. split; [exact H2|lia].
Qed.

Lemma _send_beside_salt_advance data meanwhile arrivals s :
  ∃ later,
    salt_advance s (_send_beside_salt_task data meanwhile arrivals s).2 later ∧
    (length later ≤ salt_wakes meanwhile)%nat.
Proof.
  unfold _send_beside_salt_task.
  pose proof (_send_begin_salt_frame data true s) as Hb.
  destruct (_send_begin data true s) as [[mid|e] s1]; cbn [snd] in Hb.
  2: { exists []. split; [by apply salt_advance_frame|simpl; lia]. }
  destruct (meanwhile_salt_advance meanwhile s1 None) as (later & Ha & Hlen).
  exists later. split; [|exact Hlen].
  eapply salt_advance_pre; [exact Hb|].
  eapply salt_advance_post; [exact Ha|].
  eapply salt_frame_trans; [apply await_slot_salt_frame|apply _send_end_salt_frame].
Qed.

(** *** What the salt task leaves alone *)

Lemma control_start_frame s s' : control_frame s s' → start_frame s s'.
Proof. intros (A1 & A2 & _ & _ & _ & _ & A7 & A8). by repeat split. Qed.

Lemma start_frame_refl s : start_frame s s.
Proof. by repeat split. Qed.

Lemma start_frame_trans s1 s2 s3 :
  start_frame s1 s2 → start_frame s2 s3 → start_frame s1 s3.
Proof.
  intros (A1 & A2 & A3 & A4) (B1 & B2 & B3 & B4). repeat split; congruence.
Qed.

Lemma set_next_salt_task_start_frame t s : start_frame s (set_next_salt_task t s).
Proof. by destruct s. Qed.

Lemma close_start_frame s :
  start_frame s (set_connection (conn_close <$> connection s) s).
Proof. by destruct s. Qed.

Lemma set_current_salt_start_frame v s : start_frame s (set_current_salt v s).
Proof. by destruct s. Qed.

Lemma _send_end_control_frame data mid s : control_frame s (_send_end data mid s).2.
Proof. unfold _send_end. destruct (results s !! mid); by repeat split. Qed.

Lemma next_salt_failed_start_frame e s : start_frame s (next_salt_failed e s).
Proof.
  unfold next_salt_failed.
  destruct (is_OSError e || is_TimeoutError e || is_Error e).
  - eapply start_frame_trans;
      [apply close_start_frame|apply set_next_salt_task_start_frame].
  - apply set_next_salt_task_start_frame.
Qed.

Lemma next_salt_request_start_frame s : start_frame s (next_salt_request s).1.
Proof.
  unfold next_salt_request.
  destruct (next_salt_task s) as [[]|]; try apply start_frame_refl.
  destruct (next_salt_task_event s); [apply set_next_salt_task_start_frame|].
  destruct (current_salt s); [|apply set_next_salt_task_start_frame].
  pose proof (control_start_frame _ _
                (_send_begin_control_frame (GetFutureSalts 1) true s)) as Hb.
  destruct (_send_begin (GetFutureSalts 1) true s) as [[mid|e] s1];
    cbn [fst snd] in *; [exact Hb|].
  eapply start_frame_trans; [exact Hb|apply next_salt_failed_start_frame].
Qed.

Lemma next_salt_reply_start_frame mid s : start_frame s (next_salt_reply mid s).
Proof.
  unfold next_salt_reply.
  pose proof (control_start_frame _ _
                (_send_end_control_frame (GetFutureSalts 1) mid s)) as Hf.
  destruct (_send_end (GetFutureSalts 1) mid s) as [[v|e] s1]; cbn [snd] in Hf.
  - destruct v as [[| | | | | |i [|fs others]| | | |]|];
      (eapply start_frame_trans; [exact Hf|]);
      first [apply set_next_salt_task_start_frame|apply set_current_salt_start_frame].
  - eapply start_frame_trans; [exact Hf|apply next_salt_failed_start_frame].
Qed.

Lemma meanwhile_start_frame l :
  ∀ s pending, start_frame s (fold_left meanwhile_step l (s, pending)).1.
Proof.
  induction l as [|m l IH]; intros s pending; [apply start_frame_refl|].
  change (fold_left meanwhile_step (m :: l) (s, pending))
    with (fold_left meanwhile_step l (meanwhile_step (s, pending) m)).
  destruct m as [packets| |], pending as [mid|]; cbn [meanwhile_step].
  - eapply start_frame_trans; [|apply IH].
    apply control_start_frame, await_slot_control_frame.
  - eapply start_frame_trans; [|apply IH].
    apply control_start_frame, await_slot_control_frame.
  - apply IH.
  - pose proof (next_salt_request_start_frame s) as Hf.
    destruct (next_salt_request s) as [s1 pending1]. cbn [fst] in Hf.
    eapply start_frame_trans; [exact Hf|apply IH].
  - eapply start_frame_trans; [apply next_salt_reply_start_frame|apply IH].
  - apply IH.
Qed.

Lemma _send_beside_start_frame data meanwhile arrivals s :
  start_frame s (_send_beside_salt_task data meanwhile arrivals s).2.
Proof.
  unfold _send_beside_salt_task.
  pose proof (control_start_frame _ _ (_send_begin_control_frame data true s)) as Hb.
  destruct (_send_begin data true s) as [[mid|e] s1]; cbn [snd] in Hb; [|exact Hb].
  eapply start_frame_trans; [exact Hb|].
  eapply start_frame_trans; [apply meanwhile_start_frame|].
  apply control_start_frame.
  eapply control_frame_trans;
    [apply await_slot_control_frame|apply _send_end_control_frame].
Qed.

(** *** What goes out on the transport meanwhile *)















End SaltTask.

Section Handshake.
Context {ext : Externals}.

Lemma _send_control_frame_eq data w arrivals s o s' :
  _send data w arrivals s = (o, s') → control_frame s s'.
Proof.
  intros Heq. pose proof (_send_control_frame data w arrivals s) as Hf.
  by rewrite Heq in Hf.
Qed.

Lemma _send_salt_frame_eq data w arrivals s o s' :
  _send data w arrivals s = (o, s') → salt_frame s s'.
Proof.
  intros Heq. pose proof (_send_salt_frame data w arrivals s) as Hf.
  by rewrite Heq in Hf.
Qed.

(** The steps of a pass of [start] that goes through. *)
Lemma start_body_steps p s0 s1 :
  start_body p s0 = (Return tt, s1) →
  ∃ c r1 sB nss i fs others sC sD,
    connection s0 = Some c ∧
    connect_raises c = None ∧
    _send (Ping 0) true (pass_ping p)
      (set_current_salt (bare_salt INITIAL_SALT)
         (set_recv_task (Some TaskRunning)
            (set_net_worker_task (Some TaskRunning) s0))) =
      (Return (Some r1), sB) ∧
    new_server_salt_attr r1 = Some nss ∧
    _send (GetFutureSalts 1) true (pass_salts p)
      (set_current_salt (bare_salt nss) sB) =
      (Return (Some (FutureSalts i (fs :: others))), sC) ∧
    (if is_cdn (set_next_salt_task (Some TaskRunning) (set_current_salt fs sC))
     then sD = set_next_salt_task (Some TaskRunning) (set_current_salt fs sC)
     else ∃ v,
         _send_beside_salt_task
           (init_request
              (set_next_salt_task (Some TaskRunning) (set_current_salt fs sC)))
           (pass_meanwhile p) (pass_init p)
           (set_next_salt_task (Some TaskRunning) (set_current_salt fs sC)) =
         (Return v, sD)) ∧
    s1 = set_ping_task (Some TaskRunning) sD.
Proof.
  unfold start_body. cbv zeta.
  destruct (connection s0) as [c|]; [|done].
  destruct (connect_raises c) eqn:Hcr; [done|].
  destruct (_send (Ping 0) true (pass_ping p) _) as [[r|e] sB] eqn:Hping; [|done].
  destruct (r ≫= new_server_salt_attr) as [nss|] eqn:Hattr; [|done].
  destruct r as [r1|]; [|done]. simpl in Hattr.
  destruct (_send (GetFutureSalts 1) true (pass_salts p) _)
    as [[r2|e] sC] eqn:Hsalts; [|done].
  destruct r2 as [[]|]; try done.
  destruct salts as [|fs others]; [done|].
  destruct (is_cdn (set_next_salt_task (Some TaskRunning) (set_current_salt fs sC)))
    eqn:Hcdn.
  - intros [= <-]. eexists c, r1, sB, nss, _, fs, others, sC, _.
    rewrite Hcdn. repeat split; try done.
  - destruct (_send_beside_salt_task (init_request _) (pass_meanwhile p)
                (pass_init p) _) as [[v|e] sD] eqn:Hinit; [|done].
    intros [= <-]. eexists c, r1, sB, nss, _, fs, others, sC, sD.
    rewrite Hcdn. repeat split; try done. by exists v.
Qed.

(** The session where the salt task is spawned (line 140), against the one
    the pass began with. *)
Lemma start_body_spawn p s0 r1 sB nss i fs others sC :
  _send (Ping 0) true (pass_ping p)
    (set_current_salt (bare_salt INITIAL_SALT)
       (set_recv_task (Some TaskRunning)
          (set_net_worker_task (Some TaskRunning) s0))) =
    (Return (Some r1), sB) →
  _send (GetFutureSalts 1) true (pass_salts p)
    (set_current_salt (bare_salt nss) sB) =
    (Return (Some (FutureSalts i (fs :: others))), sC) →
  start_frame s0 (set_next_salt_task (Some TaskRunning) (set_current_salt fs sC)) ∧
  salt_advance s0 (set_next_salt_task (Some TaskRunning) (set_current_salt fs sC))
    [bare_salt INITIAL_SALT; bare_salt nss; fs].
Proof.
  intros Hping Hsalts.
  pose proof (control_start_frame _ _ (_send_control_frame_eq _ _ _ _ _ _ Hping)) as A.
  pose proof (control_start_frame _ _ (_send_control_frame_eq _ _ _ _ _ _ Hsalts)) as B.
  pose proof (_send_salt_frame_eq _ _ _ _ _ _ Hping) as SA.
  pose proof (_send_salt_frame_eq _ _ _ _ _ _ Hsalts) as SB.
  split.
  - eapply start_frame_trans; [|apply set_next_salt_task_start_frame].
    eapply start_frame_trans; [|apply set_current_salt_start_frame].
    eapply start_frame_trans; [|exact B].
    eapply start_frame_trans; [|apply set_current_salt_start_frame].
    eapply start_frame_trans; [|exact A].
    by destruct s0.
  - eapply salt_advance_post; [|apply set_next_salt_task_salt_frame].
    eapply (salt_advance_trans _ _ _ [_; _] [_]); [|apply set_current_salt_advance].
    eapply salt_advance_post; [|exact SB].
    eapply (salt_advance_trans _ _ _ [_] [_]); [|apply set_current_salt_advance].
    eapply salt_advance_post; [|exact SA].
    by destruct s0.
Qed.

(** The assignments to [current_salt] in a pass that goes through: the
    three of [start] itself, then those of the salt task. *)
Lemma start_body_salts p s0 s1 :
  start_body p s0 = (Return tt, s1) →
  ∃ r1 sB nss i fs others sC later,
    _send (Ping 0) true (pass_ping p)
      (set_current_salt (bare_salt INITIAL_SALT)
         (set_recv_task (Some TaskRunning)
            (set_net_worker_task (Some TaskRunning) s0))) =
      (Return (Some r1), sB) ∧
    new_server_salt_attr r1 = Some nss ∧
    _send (GetFutureSalts 1) true (pass_salts p)
      (set_current_salt (bare_salt nss) sB) =
      (Return (Some (FutureSalts i (fs :: others))), sC) ∧
    salt_writes s1 =
      salt_writes s0 ++ [bare_salt INITIAL_SALT; bare_salt nss; fs] ++ later ∧
    current_salt s1 = Some (default fs (last later)) ∧
    (length later ≤ salt_wakes (pass_meanwhile p))%nat ∧
    (is_cdn s0 = true → later = []).
Proof.
  intros Hbody.
  destruct (start_body_steps p s0 s1 Hbody)
    as (c & r1 & sB & nss & i & fs & others & sC & sD &
        _ & _ & Hping & Hattr & Hsalts & Hinit & ->).
  destruct (start_body_spawn p s0 r1 sB nss i fs others sC Hping Hsalts)
    as ((_ & _ & Hcdn & _) & Hadv).
  set (sC' := set_next_salt_task (Some TaskRunning) (set_current_salt fs sC)) in *.
  assert (∃ later,
             salt_advance sC' sD later ∧
             (length later ≤ salt_wakes (pass_meanwhile p))%nat ∧
             (is_cdn s0 = true → later = [])) as (later & Hlater & Hlen & Hnone).
  { rewrite Hcdn in Hinit. destruct (is_cdn s0).
    - subst sD. exists []. split; [apply salt_advance_frame, salt_frame_refl|].
      split; [simpl; lia|done].
    - destruct Hinit as [v Hinit].
      destruct (_send_beside_salt_advance (init_request sC') (pass_meanwhile p)
                  (pass_init p) sC') as (later & Ha & Hl).
      rewrite Hinit in Ha. exists later. split; [exact Ha|]. split; [exact Hl|done]. }
  destruct (salt_advance_trans _ _ _ _ _ Hadv Hlater) as [Hw Hc].
  exists r1, sB, nss, i, fs, others, sC, later.
  split; [exact Hping|]. split; [exact Hattr|]. split; [exact Hsalts|].
  split; [|split; [|split; [exact Hlen|exact Hnone]]].
  - cbn [salt_writes set_ping_task]. exact Hw.
  - cbn [current_salt set_ping_task]. rewrite Hc.
    change ([bare_salt INITIAL_SALT; bare_salt nss; fs] ++ later)
      with ([bare_salt INITIAL_SALT; bare_salt nss] ++ fs :: later).
    rewrite last_app, last_cons. by destruct (last later).
Qed.

(** Line 325 when the slot of the salt task holds future salts. *)
Lemma next_salt_reply_assigns mid s r i fs others :
  results s !! mid = Some r →
  value r = Some (FutureSalts i (fs :: others)) →
  current_salt (next_salt_reply mid s) = Some fs ∧
  salt_writes (next_salt_reply mid s) = salt_writes s ++ [fs].
Proof.
  intros Hr Hv. unfold next_salt_reply, _send_end. rewrite Hr, Hv.
  cbn [result_outcome]. by destruct s.
Qed.

(** C9, amended: in the pass of [start]'s loop that goes through without an
    error, [start] itself assigns [current_salt] three times, in this order:
    [FutureSalt(0, 0, INITIAL_SALT)], then [FutureSalt(0, 0, nss)] with
    [nss] the [new_server_salt] attribute of the value [_send(Ping(0))]
    returned, then the first salt of the reply to [GetFutureSalts(1)].  The
    salt task spawned next may assign it again while [start] waits for the
    reply to the layer announcement, at most once each time it reads the
    reply to a request of its own (whose first salt it installs) and never
    on a CDN session, where [start] does not wait: the assignments of the
    pass are those three followed by the salt task's, and [current_salt] is
    at the end the last of them, the future salt when the salt task assigned
    nothing.  Whenever [start] ends without an error these are the
    last assignments; they are the only ones of the call when its first pass
    is the one that goes through. *)
Theorem start_assigns_salt_three_times_per_pass :
  (∀ p s0 s1,
     start_body p s0 = (Return tt, s1) →
     ∃ r1 sB nss i fs others sC later,
       _send (Ping 0) true (pass_ping p)
         (set_current_salt (bare_salt INITIAL_SALT)
            (set_recv_task (Some TaskRunning)
               (set_net_worker_task (Some TaskRunning) s0))) =
         (Return (Some r1), sB) ∧
       new_server_salt_attr r1 = Some nss ∧
       _send (GetFutureSalts 1) true (pass_salts p)
         (set_current_salt (bare_salt nss) sB) =
         (Return (Some (FutureSalts i (fs :: others))), sC) ∧
       salt_writes s1 =
         salt_writes s0 ++ [bare_salt INITIAL_SALT; bare_salt nss; fs] ++ later ∧
       current_salt s1 = Some (default fs (last later)) ∧
       (length later ≤ salt_wakes (pass_meanwhile p))%nat ∧
       (is_cdn s0 = true → later = [])) ∧
  (∀ mid s r i fs others,
     results s !! mid = Some r →
     value r = Some (FutureSalts i (fs :: others)) →
     current_salt (next_salt_reply mid s) = Some fs ∧
     salt_writes (next_salt_reply mid s) = salt_writes s ++ [fs]) ∧
  (∀ script s s',
     start script s = Some (Return tt, s') →
     ∃ earlier nss fs later p,
       p ∈ script ∧
       salt_writes s' =
         earlier ++ [bare_salt INITIAL_SALT; bare_salt nss; fs] ++ later ∧
       current_salt s' = Some (default fs (last later)) ∧
       (length later ≤ salt_wakes (pass_meanwhile p))%nat ∧
       ∀ p0 rest,
         script = p0 :: rest →
         (start_body p0 (set_connection (Some (pass_connection p0)) s)).1 =
           Return tt →
         earlier = salt_writes s ∧ p = p0).
Proof.
  split; [apply start_body_salts|].
  split; [intros mid s r i fs others; apply next_salt_reply_assigns|].
  induction script as [|p script IH]; intros s s'; [done|].
  rewrite start_unfold.
  destruct (start_body p (set_connection (Some (pass_connection p)) s))
    as [[[]|e] s1] eqn:Hbody.
  - intros [= <-].
    destruct (start_body_salts _ _ _ Hbody)
      as (r1 & sB & nss & i & fs & others & sC & later & _ & _ & _ & Hw & Hc & Hl & _).
    exists (salt_writes s), nss, fs, later, p.
    split; [apply elem_of_cons; by left|].
    split; [exact Hw|]. split; [exact Hc|]. split; [exact Hl|].
    by intros p0 rest [= <- <-] _.
  - destruct (stop s1) as [[[]|e'] s2]; [|done].
    destruct (is_OSError e || is_TimeoutError e || is_Error e); [|done].
    intros Hrest.
    destruct (IH _ _ Hrest) as (earlier & nss & fs & later & p' & Hin & Hw & Hc & Hl & _).
    exists earlier, nss, fs, later, p'.
    split; [apply elem_of_cons; by right|].
    split; [exact Hw|]. split; [exact Hc|]. split; [exact Hl|].
    intros p0 rest [= <- <-]. rewrite Hbody. done.
Qed.

Lemma start_body_frames p s0 s1 :
  start_body p s0 = (Return tt, s1) →
  is_connected s1 = is_connected s0 ∧
  is_cdn s1 = is_cdn s0 ∧
  ping_task s1 = Some TaskRunning ∧
  ∃ fs, current_salt s1 = Some fs.
Proof.
  intros Hbody.
  destruct (start_body_salts p s0 s1 Hbody)
    as (r1 & sB & nss & i & fs & others & sC & later & _ & _ & _ & _ & Hc & _).
  destruct (start_body_steps p s0 s1 Hbody)
    as (c & r1' & sB' & nss' & i' & fs' & others' & sC' & sD &
        _ & _ & Hping & _ & Hsalts & Hinit & Hs1).
  destruct (start_body_spawn p s0 _ _ _ _ _ _ _ Hping Hsalts)
    as ((A1 & _ & A3 & _) & _).
  assert (start_frame (set_next_salt_task (Some TaskRunning) (set_current_salt fs' sC')) sD)
    as (D1 & _ & D3 & _).
  { destruct (is_cdn (set_next_salt_task _ _)).
    - subst sD. apply start_frame_refl.
    - destruct Hinit as [v Hinit].
      pose proof (_send_beside_start_frame
                    (init_request (set_next_salt_task (Some TaskRunning)
                                     (set_current_salt fs' sC')))
                    (pass_meanwhile p) (pass_init p)
                    (set_next_salt_task (Some TaskRunning) (set_current_salt fs' sC')))
        as Hf.
      by rewrite Hinit in Hf. }
  split; [|split; [|split]].
  - subst s1. cbn [is_connected set_ping_task]. by rewrite D1.
  - subst s1. cbn [is_cdn set_ping_task]. by rewrite D3.
  - subst s1. reflexivity.
  - by eexists.
Qed.

(** X18: [start] leaves [is_connected] set exactly when it returns
    normally, and then the keepalive task has been spawned and a salt is
    installed; however [start] fails, it hands the session back with
    [is_connected] cleared. *)
Theorem start_connected_iff_success script :
  ∀ s r s',
    start script s = Some (r, s') →
    is_connected s' = (if r is Return _ then true else false) ∧
    (r = Return tt →
     ping_task s' = Some TaskRunning ∧
     ∃ fs, current_salt s' = Some fs).
Proof.
  induction script as [|p script IH]; intros s r s'; [done|].
  rewrite start_unfold.
  destruct (start_body p (set_connection (Some (pass_connection p)) s))
    as [[[]|e] s1] eqn:Hbody.
  - intros [= <- <-].
    destruct (start_body_frames _ _ _ Hbody) as (_ & _ & H3 & H4).
    split; [reflexivity|]. intros _. exact (conj H3 H4).
  - pose proof (stop_clears_is_connected s1) as Hic.
    destruct (stop s1) as [[[]|e'] s2]; cbn [snd] in Hic.
    + destruct (is_OSError e || is_TimeoutError e || is_Error e).
      * apply IH.
      * intros [= <- <-]. split; [exact Hic|]. intros Hr. discriminate Hr.
    + intros [= <- <-]. split; [exact Hic|]. intros Hr. discriminate Hr.
Qed.

End Handshake.

Section HandshakePayloads.
Context {ext : Externals}.


End HandshakePayloads.

Section Released.
Context {ext : Externals}.






End Released.

Section KeepAliveFacts.
Context {ext : Externals}.

(** X19: a turn of the keepalive loop on a started session.  With
    [ping_task_event] set it leaves the loop and touches nothing.
    Otherwise it goes round again even when the transport raises an
    OSError, a TimeoutError or an RPC error, and never touches
    [pending_acks] or the salt; when the transport accepts the call, what
    went out is [PingDelayDisconnect(0, WAIT_TIMEOUT + 10)] packed with the
    current salt, and no result slot was allocated for it. *)
Theorem ping_turn_keepalive s cs c :
  current_salt s = Some cs →
  connection s = Some c →
  (ping_task_event s = true → ping_turn s = (Return false, s)) ∧
  (ping_task_event s = false →
   (∀ e rest, send_raises c = Some e :: rest →
              is_OSError e || is_TimeoutError e || is_Error e = true) →
   (ping_turn s).1 = Return true ∧
   pending_acks (ping_turn s).2 = pending_acks s ∧
   current_salt (ping_turn s).2 = current_salt s ∧
   (next_send_ok c →
    results (ping_turn s).2 = results s ∧
    ∃ mid sq,
      transport_extended s (ping_turn s).2
        [{| p_message :=
              {| out_msg_id := mid; out_seq_no := sq;
                 out_body := PingDelayDisconnect 0 25 |};
            p_salt := salt cs |}])).
Proof.
  destruct s as [a b cl conn mc salt0 sw pa rq rs pt pe nt ne wt rt ic]. simpl.
  intros -> ->. unfold ping_turn. simpl. split.
  - by intros ->.
  - intros -> Herr. unfold _send, _send_begin, conn_send, next_send_ok. simpl.
    destruct (msg_factory mc (PingDelayDisconnect 0 (WAIT_TIMEOUT + 10)))
      as [mid sq]. simpl.
    destruct (send_raises c) as [|[e|] rest] eqn:Hscript; simpl.
    + repeat split. exists mid, sq. unfold transport_extended. simpl. done.
    + pose proof (Herr e rest eq_refl) as Hcaught.
      destruct (is_OSError e) eqn:Hos; simpl in *.
      * rewrite Hos. simpl. by repeat split.
      * rewrite Hos. simpl. rewrite Hcaught. simpl. by repeat split.
    + repeat split. exists mid, sq. unfold transport_extended. simpl. done.
Qed.

End KeepAliveFacts.

(** * Runs for the further properties *)

Section MoreRuns.

Lemma content_message_acked_or_pending_witness :
  msg_id (demo_update 1) ∈
    pending_acks (handle_packet (ext:=demo) eight_updates live_session) ∨
  ∃ p ids,
    transport_extended live_session
      (handle_packet (ext:=demo) eight_updates live_session) [p] ∧
    out_body (p_message p) = MsgsAck ids ∧
    msg_id (demo_update 1) ∈ ids.
Proof.
  refine (content_message_acked_or_pending (ext:=demo) eight_updates live_session
            {| valid_since := 0; valid_until := 3600; salt := 9 |}
            (mkMessage 300 0 0
               (MsgContainer (demo_update <$> [1; 2; 3; 4; 5; 6; 7; 8])))
            (demo_update 1) eq_refl eq_refl _ eq_refl).
  apply elem_of_cons. by left.
Defined.


Lemma worker_keeps_and_fires_slots_witness :
  slots_advance waiting_session
    (net_worker_loop (ext:=demo) [Some [0; 101; 1; 12; 5]] waiting_session).
Proof.
  exact (worker_keeps_and_fires_slots (ext:=demo) [Some [0; 101; 1; 12; 5]]
           waiting_session waiting_session_fresh_ids).
Defined.

Lemma _send_leaves_no_slot_witness :
  results (_send (ext:=demo) GetConfig true [] live_session).2 !! 16 = None.
Proof.
  refine (_send_leaves_no_slot (ext:=demo) GetConfig [] live_session
            {| valid_since := 0; valid_until := 3600; salt := 9 |}
            (fresh_connection []) eq_refl eq_refl _).
  intros e rest Hscript. discriminate Hscript.
Defined.

Lemma _send_without_salt_leaks_slot_witness :
  (_send (ext:=demo) GetConfig true [] (new_session 1 false None)).1 =
    Raise AttributeError ∧
  results (_send (ext:=demo) GetConfig true [] (new_session 1 false None)).2 !! 4 =
    Some {| value := None; event := false |} ∧
  msg_count (_send (ext:=demo) GetConfig true [] (new_session 1 false None)).2 = 1%nat.
Proof.
  exact (_send_without_salt_leaks_slot (ext:=demo) GetConfig []
           (new_session 1 false None) eq_refl).
Defined.

Lemma send_negative_retries_never_gives_up_witness :
  ∃ s' t,
    send (ext:=demo) GetConfig (-1) [[]] (new_session 1 false None) =
      Some (Raise AttributeError, s', t) ∧
    retryable AttributeError = false.
Proof.
  eexists _, _. split; [vm_compute; reflexivity|].
  eapply (send_negative_retries_never_gives_up (ext:=demo) GetConfig [[]] (-1)
            (new_session 1 false None) AttributeError); [lia|].
  vm_compute. reflexivity.
Defined.

Lemma send_trace_shape_witness :
  ∃ r s' t k,
    send (ext:=demo) GetConfig MAX_RETRIES silent_waits live_session =
      Some (r, s', t) ∧
    t = retry_trace k true ∧
    attempts t = S k.
Proof.
  destruct (send (ext:=demo) GetConfig MAX_RETRIES silent_waits live_session)
    as [[[r s'] t]|] eqn:Hsend; [|vm_compute in Hsend; discriminate Hsend].
  destruct (send_trace_shape (ext:=demo) GetConfig silent_waits MAX_RETRIES
              live_session r s' t Hsend) as (k & Ht & Ha & _).
  exists r, s', t, k. split; [reflexivity|]. split; [exact Ht|exact Ha].
Defined.

Lemma send_keeps_salt_and_lifecycle_witness :
  ∃ r s' t,
    send (ext:=demo) GetConfig MAX_RETRIES silent_waits live_session =
      Some (r, s', t) ∧
    current_salt s' = current_salt live_session ∧
    is_connected s' = is_connected live_session.
Proof.
  eexists _, _, _. split; [vm_compute; reflexivity|].
  match goal with
  | |- current_salt ?s' = _ ∧ _ =>
      destruct (send_keeps_salt_and_lifecycle (ext:=demo) GetConfig MAX_RETRIES
                  silent_waits live_session (Raise TimeoutError) s'
                  (retry_trace 5 true))
        as (H1 & _ & H3 & _); [vm_compute; reflexivity|]
  end.
  split; [exact H1|exact H3].
Defined.

Lemma stop_needs_started_session_witness :
  (stop (ext:=demo) (new_session 1 false None)).1 = Raise AttributeError ∧
  results (stop (ext:=demo) (new_session 1 false None)).2 =
    results (new_session 1 false None) ∧
  client (stop (ext:=demo) (new_session 1 false None)).2 =
    client (new_session 1 false None) ∧
  is_connected (stop (ext:=demo) (new_session 1 false None)).2 = false.
Proof.
  apply (stop_needs_started_session (ext:=demo) (new_session 1 false None)).
  - reflexivity.
  - reflexivity.
  - left. reflexivity.
Defined.


Lemma _send_times_out_without_worker_witness :
  (_send (ext:=demo) GetConfig true [[0; 101; 1; 16; 5]] workerless_session).1 =
    Raise TimeoutError.
Proof.
  refine (_send_times_out_without_worker (ext:=demo) GetConfig
            [[0; 101; 1; 16; 5]] workerless_session
            {| valid_since := 0; valid_until := 3600; salt := 9 |}
            (fresh_connection []) eq_refl eq_refl I (or_introl _)).
  intros Hrun. discriminate Hrun.
Defined.

Lemma stale_sentinel_fails_next_pass_witness :
  recv_queue (stop (ext:=demo) stopped_session).2 = [None] ∧
  (start_body (ext:=demo) restart_pass
     (set_connection (Some (pass_connection restart_pass))
        (stop (ext:=demo) stopped_session).2)).1 = Raise TimeoutError.
Proof.
  apply (stale_sentinel_fails_next_pass (ext:=demo) stopped_session).
  - vm_compute. reflexivity.
  - vm_compute. reflexivity.
  - vm_compute. reflexivity.
  - reflexivity.
  - exact I.
Defined.

Lemma start_first_connect_failure_not_retried_witness :
  ∃ s',
    start (ext:=demo) [unreachable_pass; good_pass] (new_session 1 false None) =
      Some (Raise TypeError, s') ∧
    is_connected s' = false.
Proof.
  exact (start_first_connect_failure_not_retried (ext:=demo) unreachable_pass
           [good_pass] (new_session 1 false None) OSError eq_refl eq_refl).
Defined.


Lemma start_connected_iff_success_witness :
  ∃ s',
    start (ext:=demo) [good_pass] (new_session 1 false (Some demo_client)) =
      Some (Return tt, s') ∧
    is_connected s' = true ∧
    ping_task s' = Some TaskRunning.
Proof.
  eexists. split; [vm_compute; reflexivity|].
  match goal with
  | |- is_connected ?s' = _ ∧ _ =>
      destruct (start_connected_iff_success (ext:=demo) [good_pass]
                  (new_session 1 false (Some demo_client)) (Return tt) s')
        as (H1 & H2); [vm_compute; reflexivity|]
  end.
  destruct (H2 eq_refl) as (H3 & _). split; [exact H1|exact H3].
Defined.

Lemma ping_turn_keepalive_witness :
  (ping_turn (ext:=demo) live_session).1 = Return true ∧
  pending_acks (ping_turn (ext:=demo) live_session).2 = pending_acks live_session.
Proof.
  destruct (ping_turn_keepalive (ext:=demo) live_session
              {| valid_since := 0; valid_until := 3600; salt := 9 |}
              (fresh_connection []) eq_refl eq_refl) as [_ Hturn].
  destruct (Hturn eq_refl) as (H1 & H2 & _).
  - intros e rest Hscript. discriminate Hscript.
  - split; [exact H1|exact H2].
Defined.

End MoreRuns.

(** * Runs of [stop] and [start] *)

Section LifecycleRuns.



(** A first pass that fails on the transport, then one that goes through:
    [current_salt] has been assigned four times when [start] returns.  And a
    single pass during which the salt task goes round once: four assignments
    again, and [current_salt] is the salt the salt task fetched, not the one
    [start] did. *)
Lemma start_salt_assignments_counterexample :
  (∃ s',
     start (ext:=demo) [failing_pass; retry_pass] (new_session 1 false None) =
       Some (Return tt, s') ∧
     salt_writes s' =
       [bare_salt 0; bare_salt 0; bare_salt 77;
        {| valid_since := 0; valid_until := 3600; salt := 88 |}] ∧
     length (salt_writes s') ≠ 3%nat) ∧
  (∃ s',
     start (ext:=demo) [salt_timer_pass] (new_session 1 false None) =
       Some (Return tt, s') ∧
     salt_writes s' =
       [bare_salt 0; bare_salt 77;
        {| valid_since := 0; valid_until := 3600; salt := 88 |};
        {| valid_since := 0; valid_until := 7200; salt := 99 |}] ∧
     length (salt_writes s') ≠ 3%nat ∧
     current_salt s' = Some {| valid_since := 0; valid_until := 7200; salt := 99 |} ∧
     current_salt s' ≠ Some {| valid_since := 0; valid_until := 3600; salt := 88 |}).
Proof.
  split.
  - eexists. split; [vm_compute; reflexivity|].
    vm_compute. split; [reflexivity|discriminate].
  - eexists. split; [vm_compute; reflexivity|].
    vm_compute. repeat split; try reflexivity; discriminate.
Qed.

(** The passing pass on a new session, where the salt task gets no turn. *)
Lemma start_assigns_salt_three_times_witness :
  ∃ s',
    start (ext:=demo) [good_pass] (new_session 1 false (Some demo_client)) =
      Some (Return tt, s') ∧
    ∃ nss fs,
      salt_writes s' = [bare_salt (@INITIAL_SALT demo); bare_salt nss; fs] ∧
      current_salt s' = Some fs.
Proof.
  eexists. split; [vm_compute; reflexivity|].
  match goal with
  | |- context [salt_writes ?s'] =>
      destruct (proj2 (proj2 (start_assigns_salt_three_times_per_pass (ext:=demo)))
                  [good_pass] (new_session 1 false (Some demo_client)) s')
        as (earlier & nss & fs & later & p & Hin & Hw & Hc & Hl & Hfirst);
        [vm_compute; reflexivity|]
  end.
  destruct (Hfirst good_pass [] eq_refl) as [-> ->]; [vm_compute; reflexivity|].
  destruct later as [|x later]; [|simpl in Hl; lia].
  exists nss, fs. split; [exact Hw|exact Hc].
Defined.

End LifecycleRuns.
